(** * ADS1115 I2C driver: a shallow embedding and its verified properties

    The development follows the two C sources of the repository:
    - the kernel module (constants, [ads1115_read_single_channel],
      [ads1115_ioctl]);
    - the user-space demo [demo_ads1115.c] ([adc_to_vol], [main]).

    Fixed-width C integers are integers of [Z] with the wrap-around written
    out; C floating-point numbers are IEEE 754 numbers ([spec_float]) with
    the rounding of every operation written out; the I2C transport, the
    kernel log and the user address space are explicit state. *)

From Stdlib Require Import ZArith List String Bool Lia SpecFloat.
Import ListNotations.
Local Open Scope Z_scope.

(** ** Fixed-width integers *)

(** Conversion to an unsigned / signed 16-bit integer ([u16], [s16]): the
    value modulo 2^16, taken in [0, 65536) or in [-32768, 32768). *)
Definition to_u16 (x : Z) : Z := x mod 2 ^ 16.

Definition to_s16 (x : Z) : Z := (x + 2 ^ 15) mod 2 ^ 16 - 2 ^ 15.

Definition is_u16 (x : Z) : Prop := 0 <= x < 65536.

Definition is_s16 (x : Z) : Prop := -32768 <= x < 32768.

(** [swab16] of <linux/swab.h>:
    [((__u16)(x) & 0x00ff) << 8 | ((__u16)(x) & 0xff00) >> 8], as a [__u16]. *)
Definition swab16 (x : Z) : Z :=
  to_u16 (Z.lor (Z.shiftl (Z.land (to_u16 x) 0x00ff) 8)
                (Z.shiftr (Z.land (to_u16 x) 0xff00) 8)).

(** ** Constants of the driver *)

(** Error numbers of <asm-generic/errno-base.h> and <asm-generic/errno.h>. *)
Definition EIO : Z := 5.
Definition ENXIO : Z := 6.
Definition EFAULT : Z := 14.
Definition EBUSY : Z := 16.
Definition ENODEV : Z := 19.
Definition EINVAL : Z := 22.
Definition ETIMEDOUT : Z := 110.
(** <linux/err.h>: a status in [-MAX_ERRNO, -1] is an error code. *)
Definition MAX_ERRNO : Z := 4095.

(** ADS1115 register addresses. *)
Definition ADS1115_REG_POINTER_CONVERSION : Z := 0x00.
Definition ADS1115_REG_POINTER_CONFIG : Z := 0x01.

(** Config register bits. *)
Definition ADS1115_CONFIG_OS_SINGLE : Z := 0x8000.
Definition ADS1115_CONFIG_MUX_OFFSET : Z := 12.
Definition ADS1115_CONFIG_PGA_OFFSET : Z := 9.
Definition ADS1115_CONFIG_MODE_SINGLE : Z := 0x0100.
Definition ADS1115_CONFIG_DR_OFFSET : Z := 5.

(** MUX config for the analog channels. *)
Definition ADS1115_MUX_AIN0_GND : Z := Z.shiftl 0x04 ADS1115_CONFIG_MUX_OFFSET.
Definition ADS1115_MUX_AIN1_GND : Z := Z.shiftl 0x05 ADS1115_CONFIG_MUX_OFFSET.
Definition ADS1115_MUX_AIN2_GND : Z := Z.shiftl 0x06 ADS1115_CONFIG_MUX_OFFSET.
Definition ADS1115_MUX_AIN3_GND : Z := Z.shiftl 0x07 ADS1115_CONFIG_MUX_OFFSET.

(** PGA and data rate config. *)
Definition ADS1115_PGA_4_096V : Z := Z.shiftl 0x01 ADS1115_CONFIG_PGA_OFFSET.
Definition ADS1115_DR_128SPS : Z := Z.shiftl 0x04 ADS1115_CONFIG_DR_OFFSET.

(** Base config for the Config register. *)
Definition ADS1115_CONFIG_BASE : Z :=
  Z.lor ADS1115_CONFIG_OS_SINGLE
    (Z.lor ADS1115_PGA_4_096V
       (Z.lor ADS1115_CONFIG_MODE_SINGLE
          (Z.lor ADS1115_DR_128SPS 0x0003))).

(** [_IOR(type, nr, size)] of <asm-generic/ioctl.h>:
    [(_IOC_READ << 30) | (sizeof(size) << 16) | (type << 8) | nr] with
    [_IOC_READ = 2]. *)
Definition _IOR (type nr size : Z) : Z :=
  Z.lor (Z.shiftl 2 30)
    (Z.lor (Z.shiftl type 8) (Z.lor (Z.shiftl nr 0) (Z.shiftl size 16))).

(** IOCTL commands; the magic is the character 'a' (97), [sizeof(s16)] is 2. *)
Definition ADS1115_IOCTL_MAGIC : Z := 97.
Definition ADS1115_IOCTL_READ_AIN0 : Z := _IOR ADS1115_IOCTL_MAGIC 0 2.
Definition ADS1115_IOCTL_READ_AIN1 : Z := _IOR ADS1115_IOCTL_MAGIC 1 2.
Definition ADS1115_IOCTL_READ_AIN2 : Z := _IOR ADS1115_IOCTL_MAGIC 2 2.
Definition ADS1115_IOCTL_READ_AIN3 : Z := _IOR ADS1115_IOCTL_MAGIC 3 2.

(** The command the control surface uses for channel selector [s]: the
    pattern of the four [ADS1115_IOCTL_READ_AINn] definitions. *)
Definition ADS1115_IOCTL_READ_AIN (s : Z) : Z := _IOR ADS1115_IOCTL_MAGIC s 2.

(** Line 66 of the driver: [config_val = ADS1115_CONFIG_BASE | mux_config],
    stored in a [u16]. *)
Definition build_config (mux_config : Z) : Z :=
  to_u16 (Z.lor ADS1115_CONFIG_BASE mux_config).

(** The [switch (cmd)] of [ads1115_ioctl]: the mux configuration the matching
    case passes to the conversion engine, [None] for the [default] case. *)
Definition ioctl_mux (cmd : Z) : option Z :=
  if cmd =? ADS1115_IOCTL_READ_AIN0 then Some ADS1115_MUX_AIN0_GND
  else if cmd =? ADS1115_IOCTL_READ_AIN1 then Some ADS1115_MUX_AIN1_GND
  else if cmd =? ADS1115_IOCTL_READ_AIN2 then Some ADS1115_MUX_AIN2_GND
  else if cmd =? ADS1115_IOCTL_READ_AIN3 then Some ADS1115_MUX_AIN3_GND
  else None.

(** ** The transport, the kernel log and the user address space *)

(** What the driver does to the outside world, in the order it does it: the
    three SMBus primitives it calls and the sleep between them. *)
Inductive io_event : Type :=
| WriteWordData (command value : Z)
| Msleep (msecs : Z)
| WriteByte (value : Z)
| ReadWordData (command : Z).

(** A line of the kernel log ([printk], [dev_err]): the format string and the
    integer it prints, if any. *)
Inductive klog_entry : Type :=
| Printk (fmt : string)
| PrintkInt (fmt : string) (n : Z).

(** The bus transport the driver consumes: the three blocking primitives of
    <linux/i2c.h> over a client handle [C], as transitions of the state [B] of
    the bus and the device behind it. Each returns an [s32]: a negative error
    number on failure; on success 0 for the writes and the 16-bit word read
    for [i2c_smbus_read_word_data]. *)
Record i2c_ops (C B : Type) : Type := {
  i2c_smbus_write_word_data : C -> Z -> Z -> B -> Z * B;
  i2c_smbus_write_byte : C -> Z -> B -> Z * B;
  i2c_smbus_read_word_data : C -> Z -> B -> Z * B
}.

Arguments i2c_smbus_write_word_data {C B}.
Arguments i2c_smbus_write_byte {C B}.
Arguments i2c_smbus_read_word_data {C B}.

(** The state the driver runs in: its global [ads1115_client] (null until a
    device is probed), the bus, the events so far, the kernel log, and the
    user address space as the [s16] cells a user pointer may name ([None]: the
    address faults). *)
Record kstate (C B : Type) : Type := {
  ads1115_client : option C;
  bus : B;
  trace : list io_event;
  klog : list klog_entry;
  umem : Z -> option Z
}.

Arguments ads1115_client {C B}.
Arguments bus {C B}.
Arguments trace {C B}.
Arguments klog {C B}.
Arguments umem {C B}.

Section Driver.

Context {C B : Type}.
Variable ops : i2c_ops C B.

Let state : Type := kstate C B.

(** Kernel code as a state transformer with a result. *)
Definition M (A : Type) : Type := state -> A * state.

Definition ret {A : Type} (a : A) : M A := fun st => (a, st).

Definition bind {A A' : Type} (m : M A) (k : A -> M A') : M A' :=
  fun st => let (a, st') := m st in k a st'.

Notation "x <- m ;; k" := (bind m (fun x => k))
  (at level 61, m at next level, right associativity).
Notation "m ;; k" := (bind m (fun _ => k))
  (at level 61, right associativity).

Definition get_client : M (option C) := fun st => (ads1115_client st, st).

Definition bus_call (ev : io_event) (f : B -> Z * B) : M Z :=
  fun st =>
    let (r, b) := f (bus st) in
    (r, {| ads1115_client := ads1115_client st; bus := b;
           trace := trace st ++ [ev]; klog := klog st; umem := umem st |}).

Definition smbus_write_word_data (client : C) (command value : Z) : M Z :=
  bus_call (WriteWordData command value)
           (i2c_smbus_write_word_data ops client command value).

Definition smbus_write_byte (client : C) (value : Z) : M Z :=
  bus_call (WriteByte value) (i2c_smbus_write_byte ops client value).

Definition smbus_read_word_data (client : C) (command : Z) : M Z :=
  bus_call (ReadWordData command) (i2c_smbus_read_word_data ops client command).

Definition msleep (msecs : Z) : M unit :=
  fun st =>
    (tt, {| ads1115_client := ads1115_client st; bus := bus st;
            trace := trace st ++ [Msleep msecs]; klog := klog st;
            umem := umem st |}).

Definition log (e : klog_entry) : M unit :=
  fun st =>
    (tt, {| ads1115_client := ads1115_client st; bus := bus st;
            trace := trace st; klog := klog st ++ [e]; umem := umem st |}).

(** [copy_to_user(to, &data, sizeof(data))] for an [s16]: the number of bytes
    that could not be copied, 0 when the cell at [to] took the value. *)
Definition copy_to_user (to data : Z) : M Z :=
  fun st =>
    match umem st to with
    | Some _ =>
        (0, {| ads1115_client := ads1115_client st; bus := bus st;
               trace := trace st; klog := klog st;
               umem := fun a => if a =? to then Some data else umem st a |})
    | None => (2, st)
    end.

(** Read ADC value from a channel. The result is an [s16]: the statuses
    ([int]) and the word read ([s32]) are converted on the way out. *)
Definition ads1115_read_single_channel
    (client : option C) (mux_config : Z) : M Z :=
  match client with
  | None =>
      log (Printk "ads1115_driver: Invalid I2C client") ;;
      ret (to_s16 (- EIO))
  | Some client =>
      let config_val := build_config mux_config in
      r <- smbus_write_word_data client ADS1115_REG_POINTER_CONFIG
             (swab16 config_val) ;;
      if r <? 0 then
        log (PrintkInt "Config write error: %d" r) ;;
        ret (to_s16 r)
      else
        msleep 15 ;;
        r <- smbus_write_byte client ADS1115_REG_POINTER_CONVERSION ;;
        if r <? 0 then
          log (PrintkInt "Conversion register error: %d" r) ;;
          ret (to_s16 r)
        else
          w <- smbus_read_word_data client ADS1115_REG_POINTER_CONVERSION ;;
          let raw_val := to_s16 w in
          if raw_val <? 0 then
            log (PrintkInt "Read error: %d" raw_val) ;;
            ret raw_val
          else
            ret (to_s16 (swab16 raw_val))
  end.

(** The condition of the dispatcher's check for I2C errors (line 120). *)
Definition i2c_error_heuristic (data : Z) : bool :=
  (data <? -1000) &&
  ((data =? - EIO) || (data =? - ETIMEDOUT) ||
   (data =? - ENXIO) || (data =? - EBUSY)).

(** Handle IOCTL commands. [arg] is the user pointer the sample goes to; the
    result is the handler's [long]. *)
Definition ads1115_ioctl (cmd arg : Z) : M Z :=
  client <- get_client ;;
  match client with
  | None =>
      log (Printk "ads1115_driver: Client not initialized") ;;
      ret (- ENODEV)
  | Some _ =>
      match ioctl_mux cmd with
      | None =>
          log (PrintkInt "ads1115_driver: Invalid IOCTL command: %u" cmd) ;;
          ret (- EINVAL)
      | Some mux =>
          data <- ads1115_read_single_channel client mux ;;
          if i2c_error_heuristic data then
            log (PrintkInt "ads1115_driver: ADC channel read error: %d" data) ;;
            ret data
          else
            left <- copy_to_user arg data ;;
            if negb (left =? 0) then
              log (Printk "ads1115_driver: Copy to user error") ;;
              ret (- EFAULT)
            else
              ret 0
      end
  end.

End Driver.

(** The driver's state after its events, log lines and bus state have moved
    on; the client and the user address space are as in [st]. *)
Definition advance {C B : Type} (st : kstate C B) (b : B)
    (evs : list io_event) (lines : list klog_entry) : kstate C B :=
  {| ads1115_client := ads1115_client st; bus := b;
     trace := trace st ++ evs; klog := klog st ++ lines; umem := umem st |}.

(** The four steps of an acquisition on [mux_config], as the transport sees
    them. *)
Definition acquisition_steps (mux_config : Z) : list io_event :=
  [WriteWordData ADS1115_REG_POINTER_CONFIG (swab16 (build_config mux_config));
   Msleep 15;
   WriteByte ADS1115_REG_POINTER_CONVERSION;
   ReadWordData ADS1115_REG_POINTER_CONVERSION].

(** ** The command-line demo *)

Definition DEVICE_PATH : string := "/dev/ads1115".

(** C floating point: a [double] is a binary64 number (53 bits of precision,
    infinities at exponent 1024) and a [float] a binary32 number (24 bits,
    128). Every operation rounds to nearest, ties to even. *)
Definition double_of_int (n : Z) : spec_float :=
  binary_normalize 53 1024 n 0 false.

Definition double_mul (x y : spec_float) : spec_float := SFmul 53 1024 x y.

Definition double_div (x y : spec_float) : spec_float := SFdiv 53 1024 x y.

(** The conversion of a [double] to [float]. *)
Definition float_of_double (x : spec_float) : spec_float :=
  match x with
  | S754_finite s m e => binary_round 24 128 s m e
  | _ => x
  end.

(** The constants [4.096] and [32768.0]: the [double] nearest to 4.096, which
    is 0x10624DD2F1A9FC * 2^-50, and 2^15. *)
Definition double_4_096 : spec_float :=
  S754_finite false 0x10624DD2F1A9FC (-50).

Definition double_32768 : spec_float :=
  S754_finite false 0x10000000000000 (-37).

(** Convert ADC to voltage (PGA +/-4.096V): [(adc_value * 4.096) / 32768.0],
    computed in [double] and returned as a [float]. *)
Definition adc_to_vol (adc_value : Z) : spec_float :=
  float_of_double
    (double_div (double_mul (double_of_int adc_value) double_4_096)
       double_32768).

(** What the demo does to the outside world, in order. [Open] and [Ioctl]
    carry the value the C library call returned; [Ioctl] also carries the
    value of the variable [data] after the call; [Printf] carries the format
    string and its two arguments. *)
Inductive user_event : Type :=
| Open (path : string) (result : Z)
| Ioctl (fd request result data : Z)
| Perror (s : string) (errnum : Z)
| Printf (fmt : string) (adc : Z) (voltage : spec_float)
| Close (fd : Z).

(** The system calls the demo uses, as transitions of the state [K] of the
    kernel. Each gives the raw result of the call; [sys_ioctl] also gives the
    [short] the handler stored through the pointer argument, if it stored
    one. [sys_stdio] stands for the system calls made inside a call of the
    standard I/O library ([perror], [printf]) that prints the given text: it
    gives the raw result of the last one that failed, or a result that is no
    error when none failed, so that such a call may change [errno] as a
    failing system call does. *)
Record syscalls (K : Type) : Type := {
  sys_open : string -> K -> Z * K;
  sys_ioctl : Z -> Z -> K -> (Z * option Z) * K;
  sys_close : Z -> K -> Z * K;
  sys_stdio : string -> K -> Z * K
}.

Arguments sys_stdio {K}.
Arguments sys_open {K}.
Arguments sys_ioctl {K}.
Arguments sys_close {K}.

(** The state of the demo process: [errno], the kernel, the events so far. *)
Record ustate (K : Type) : Type := {
  errno : Z;
  kern : K;
  out : list user_event
}.

Arguments errno {K}.
Arguments kern {K}.
Arguments out {K}.

Section Demo.

Context {K : Type}.
Variable sys : syscalls K.

Definition U (A : Type) : Type := ustate K -> A * ustate K.

Definition uret {A : Type} (a : A) : U A := fun st => (a, st).

Definition ubind {A A' : Type} (m : U A) (k : A -> U A') : U A' :=
  fun st => let (a, st') := m st in k a st'.

Notation "x <- m ;; k" := (ubind m (fun x => k))
  (at level 61, m at next level, right associativity).
Notation "m ;; k" := (ubind m (fun _ => k))
  (at level 61, right associativity).

(** The C library's return convention for a system call: a raw result in
    [-4095, -1] is an error, reported as -1 with [errno] set to its negation;
    any other raw result is returned as it is and [errno] is left alone. *)
Definition syscall_result (r : Z) (e : Z) : Z * Z :=
  if (- MAX_ERRNO <=? r) && (r <? 0) then (-1, - r) else (r, e).

Definition emit (ev : user_event) : U unit :=
  fun st => (tt, {| errno := errno st; kern := kern st; out := out st ++ [ev] |}).

Definition get_errno : U Z := fun st => (errno st, st).

Definition open (path : string) : U Z :=
  fun st =>
    let (raw, k) := sys_open sys path (kern st) in
    let (r, e) := syscall_result raw (errno st) in
    (r, {| errno := e; kern := k; out := out st ++ [Open path r] |}).

(** [ioctl(fd, request, &data)]: the result of the call and the value of
    [data] after it. *)
Definition ioctl (fd request data : Z) : U (Z * Z) :=
  fun st =>
    let '(raw, stored, k) := sys_ioctl sys fd request (kern st) in
    let (r, e) := syscall_result raw (errno st) in
    let data' := match stored with Some v => v | None => data end in
    ((r, data'),
     {| errno := e; kern := k; out := out st ++ [Ioctl fd request r data'] |}).

Definition close (fd : Z) : U Z :=
  fun st =>
    let (raw, k) := sys_close sys fd (kern st) in
    let (r, e) := syscall_result raw (errno st) in
    (r, {| errno := e; kern := k; out := out st ++ [Close fd] |}).

(** What a call of the standard I/O library does besides printing: its system
    calls move the kernel on and may set [errno]. *)
Definition stdio (text : string) : U unit :=
  fun st =>
    let (raw, k) := sys_stdio sys text (kern st) in
    let (r, e) := syscall_result raw (errno st) in
    (tt, {| errno := e; kern := k; out := out st |}).

(** [perror(s)]: the message for the value [errno] has when it is called;
    [errno] may be different afterwards. *)
Definition perror (s : string) : U unit :=
  e <- get_errno ;; emit (Perror s e) ;; stdio s.

Definition printf (fmt : string) (adc : Z) (voltage : spec_float) : U unit :=
  emit (Printf fmt adc voltage) ;; stdio fmt.

(** [main] of the demo. [data] is the initial, indeterminate value of the
    local variable [data]; the result is the exit status [main] returns. *)
Definition main (data : Z) : U Z :=
  fd <- open DEVICE_PATH ;;
  if fd <? 0 then
    perror "Failed to open the device" ;;
    get_errno
  else
    rd <- ioctl fd ADS1115_IOCTL_READ_AIN0 data ;;
    let (r, data) := rd : Z * Z in
    if r <? 0 then
      perror "Failed to read AIN0 data" ;; close fd ;; get_errno
    else
      printf "AIN0: ADC=%d, Voltage=%.3f V" data (adc_to_vol data) ;;
      rd <- ioctl fd ADS1115_IOCTL_READ_AIN1 data ;;
      let (r, data) := rd : Z * Z in
      if r <? 0 then
        perror "Failed to read AIN1 data" ;; close fd ;; get_errno
      else
        printf "AIN1: ADC=%d, Voltage=%.3f V" data (adc_to_vol data) ;;
        rd <- ioctl fd ADS1115_IOCTL_READ_AIN2 data ;;
        let (r, data) := rd : Z * Z in
        if r <? 0 then
          perror "Failed to read AIN2 data" ;; close fd ;; get_errno
        else
          printf "AIN2: ADC=%d, Voltage=%.3f V" data (adc_to_vol data) ;;
          rd <- ioctl fd ADS1115_IOCTL_READ_AIN3 data ;;
          let (r, data) := rd : Z * Z in
          if r <? 0 then
            perror "Failed to read AIN3 data" ;; close fd ;; get_errno
          else
            printf "AIN3: ADC=%d, Voltage=%.3f V" data (adc_to_vol data) ;;
            close fd ;;
            uret 0.

End Demo.

(** *** What the demo is expected to do *)

(** The text the demo prints for channel [n], and the text it reports when
    reading channel [n] fails. *)
Definition reading_fmt (n : Z) : string :=
  if n =? 0 then "AIN0: ADC=%d, Voltage=%.3f V"
  else if n =? 1 then "AIN1: ADC=%d, Voltage=%.3f V"
  else if n =? 2 then "AIN2: ADC=%d, Voltage=%.3f V"
  else "AIN3: ADC=%d, Voltage=%.3f V".

Definition failure_msg (n : Z) : string :=
  if n =? 0 then "Failed to read AIN0 data"
  else if n =? 1 then "Failed to read AIN1 data"
  else if n =? 2 then "Failed to read AIN2 data"
  else "Failed to read AIN3 data".

(** [reads_channels fd chs evs status]: [evs] and [status] are a run that reads
    the channels [chs] in order on [fd]. Each channel is one [ioctl]; a result
    that is not negative is followed by the line for that channel, with the
    sample and the voltage [sample * 4.096 / 32768.0] as the C arithmetic
    gives it (in [double], converted to [float]), and then by the remaining
    channels; the first negative result is followed only by the report of
    the error (an error number that is not zero) and the close, and the
    status is not zero. *)
Inductive reads_channels (fd : Z) : list Z -> list user_event -> Z -> Prop :=
| reads_done :
    reads_channels fd [] [Close fd] 0
| reads_next n chs r data evs status :
    0 <= r ->
    reads_channels fd chs evs status ->
    reads_channels fd (n :: chs)
      (Ioctl fd (ADS1115_IOCTL_READ_AIN n) r data ::
       Printf (reading_fmt n) data
         (float_of_double
            (double_div (double_mul (double_of_int data) double_4_096)
               double_32768)) :: evs)
      status
| reads_fail n chs r data e status :
    r < 0 -> e <> 0 -> status <> 0 ->
    reads_channels fd (n :: chs)
      [Ioctl fd (ADS1115_IOCTL_READ_AIN n) r data;
       Perror (failure_msg n) e; Close fd]
      status.

(** ** Probe and remove *)

Definition DRIVER_NAME : string := "ads1115_driver".
Definition CLASS_NAME : string := "ads1115".
Definition DEVICE_NAME : string := "ads1115".

(** [IS_ERR] and [PTR_ERR] of <linux/err.h>, on a pointer read as a signed
    [long]: the top [MAX_ERRNO] addresses are error codes. *)
Definition IS_ERR (ptr : Z) : bool := (- MAX_ERRNO <=? ptr) && (ptr <? 0).
Definition PTR_ERR (ptr : Z) : Z := ptr.

(** [MKDEV(ma, mi)] of <linux/kdev_t.h>: [(ma << 20) | mi], computed on
    [int]s and passed as a [dev_t], an unsigned 32-bit integer: the value
    modulo 2^32. *)
Definition MKDEV (ma mi : Z) : Z := Z.lor (Z.shiftl ma 20) mi mod 2 ^ 32.

(** The calls the driver makes to the character-device and device-model
    layers, in order, with the results of those that return one. *)
Inductive life_event : Type :=
| RegisterChrdev (major : Z) (name : string) (result : Z)
| UnregisterChrdev (major : Z) (name : string)
| ClassCreate (name : string) (result : Z)
| ClassUnregister (cls : Z)
| ClassDestroy (cls : Z)
| DeviceCreate (cls devt : Z) (name : string) (result : Z)
| DeviceDestroy (cls devt : Z).

(** Those layers, as transitions of their state [R]. [register_chrdev] gives
    the major number or a negative error number; [class_create] and
    [device_create] give a pointer or an error pointer. *)
Record devmodel_ops (R : Type) : Type := {
  register_chrdev : Z -> string -> R -> Z * R;
  unregister_chrdev : Z -> string -> R -> R;
  class_create : string -> R -> Z * R;
  class_unregister : Z -> R -> R;
  class_destroy : Z -> R -> R;
  device_create : Z -> Z -> string -> R -> Z * R;
  device_destroy : Z -> Z -> R -> R
}.

Arguments register_chrdev {R}.
Arguments unregister_chrdev {R}.
Arguments class_create {R}.
Arguments class_unregister {R}.
Arguments class_destroy {R}.
Arguments device_create {R}.
Arguments device_destroy {R}.

(** The module's state: the driver's state [drv] (with [ads1115_client]), the
    globals [major_number], [ads1115_class] and [ads1115_device], the state of
    the registration layers and the calls made to them so far. *)
Record mstate (C B R : Type) : Type := {
  drv : kstate C B;
  major_number : Z;
  ads1115_class : Z;
  ads1115_device : Z;
  registry : R;
  calls : list life_event
}.

Arguments drv {C B R}.
Arguments major_number {C B R}.
Arguments ads1115_class {C B R}.
Arguments ads1115_device {C B R}.
Arguments registry {C B R}.
Arguments calls {C B R}.

Section Lifecycle.

Context {C B R : Type}.
Variable dm : devmodel_ops R.

Definition L (A : Type) : Type := mstate C B R -> A * mstate C B R.

Definition lret {A : Type} (a : A) : L A := fun st => (a, st).

Definition lbind {A A' : Type} (m : L A) (k : A -> L A') : L A' :=
  fun st => let (a, st') := m st in k a st'.

Notation "x <- m ;; k" := (lbind m (fun x => k))
  (at level 61, m at next level, right associativity).
Notation "m ;; k" := (lbind m (fun _ => k))
  (at level 61, right associativity).

Definition set_client (client : C) : L unit :=
  fun st =>
    (tt, {| drv := {| ads1115_client := Some client; bus := bus (drv st);
                      trace := trace (drv st); klog := klog (drv st);
                      umem := umem (drv st) |};
            major_number := major_number st;
            ads1115_class := ads1115_class st;
            ads1115_device := ads1115_device st;
            registry := registry st; calls := calls st |}).

Definition set_major_number (v : Z) : L unit :=
  fun st =>
    (tt, {| drv := drv st; major_number := v;
            ads1115_class := ads1115_class st;
            ads1115_device := ads1115_device st;
            registry := registry st; calls := calls st |}).

Definition set_class (v : Z) : L unit :=
  fun st =>
    (tt, {| drv := drv st; major_number := major_number st;
            ads1115_class := v; ads1115_device := ads1115_device st;
            registry := registry st; calls := calls st |}).

Definition set_device (v : Z) : L unit :=
  fun st =>
    (tt, {| drv := drv st; major_number := major_number st;
            ads1115_class := ads1115_class st; ads1115_device := v;
            registry := registry st; calls := calls st |}).

Definition get_major_number : L Z := fun st => (major_number st, st).
Definition get_class : L Z := fun st => (ads1115_class st, st).
Definition get_device : L Z := fun st => (ads1115_device st, st).

(** A call that returns a result. *)
Definition dm_call (ev : Z -> life_event) (f : R -> Z * R) : L Z :=
  fun st =>
    let (r, reg) := f (registry st) in
    (r, {| drv := drv st; major_number := major_number st;
           ads1115_class := ads1115_class st;
           ads1115_device := ads1115_device st;
           registry := reg; calls := calls st ++ [ev r] |}).

(** A call that returns nothing. *)
Definition dm_do (ev : life_event) (f : R -> R) : L unit :=
  fun st =>
    (tt, {| drv := drv st; major_number := major_number st;
            ads1115_class := ads1115_class st;
            ads1115_device := ads1115_device st;
            registry := f (registry st); calls := calls st ++ [ev] |}).

Definition lprintk (e : klog_entry) : L unit :=
  fun st =>
    (tt, {| drv := {| ads1115_client := ads1115_client (drv st);
                      bus := bus (drv st); trace := trace (drv st);
                      klog := klog (drv st) ++ [e]; umem := umem (drv st) |};
            major_number := major_number st;
            ads1115_class := ads1115_class st;
            ads1115_device := ads1115_device st;
            registry := registry st; calls := calls st |}).

(** I2C probe function. *)
Definition ads1115_i2c_probe (client : C) : L Z :=
  set_client client ;;
  major <- dm_call (RegisterChrdev 0 DEVICE_NAME)
             (register_chrdev dm 0 DEVICE_NAME) ;;
  set_major_number major ;;
  if major <? 0 then
    lprintk (PrintkInt "ads1115_driver: Major number registration failed: %d"
               major) ;;
    lret major
  else
    cls <- dm_call (ClassCreate CLASS_NAME) (class_create dm CLASS_NAME) ;;
    set_class cls ;;
    if IS_ERR cls then
      dm_do (UnregisterChrdev major DEVICE_NAME)
            (unregister_chrdev dm major DEVICE_NAME) ;;
      lprintk (Printk "ads1115_driver: Class creation failed") ;;
      lret (PTR_ERR cls)
    else
      dev <- dm_call (DeviceCreate cls (MKDEV major 0) DEVICE_NAME)
               (device_create dm cls (MKDEV major 0) DEVICE_NAME) ;;
      set_device dev ;;
      if IS_ERR dev then
        dm_do (ClassDestroy cls) (class_destroy dm cls) ;;
        dm_do (UnregisterChrdev major DEVICE_NAME)
              (unregister_chrdev dm major DEVICE_NAME) ;;
        lprintk (Printk "ads1115_driver: Device creation failed") ;;
        lret (PTR_ERR dev)
      else
        lret 0.

(** I2C remove function. Its [client] argument is not used. *)
Definition ads1115_i2c_remove (client : C) : L Z :=
  cls <- get_class ;;
  major <- get_major_number ;;
  dm_do (DeviceDestroy cls (MKDEV major 0))
        (device_destroy dm cls (MKDEV major 0)) ;;
  dm_do (ClassUnregister cls) (class_unregister dm cls) ;;
  dm_do (ClassDestroy cls) (class_destroy dm cls) ;;
  dm_do (UnregisterChrdev major DEVICE_NAME)
        (unregister_chrdev dm major DEVICE_NAME) ;;
  lret 0.

End Lifecycle.

(** Whether [l] is the start of [m]. *)
Fixpoint is_prefix (l m : list io_event) : Prop :=
  match l, m with
  | [], _ => True
  | x :: l', y :: m' => x = y /\ is_prefix l' m'
  | _ :: _, [] => False
  end.

(** ** Fixtures for concrete runs *)

(** A scripted transport: the state of the bus is the list of the results its
    next calls return, one per call; a call past the end of the script finds
    no device ([-ENXIO]). *)
Definition script_next (b : list Z) : Z * list Z :=
  match b with
  | [] => (- ENXIO, [])
  | r :: b' => (r, b')
  end.

Definition script_ops : i2c_ops unit (list Z) :=
  {| i2c_smbus_write_word_data := fun _ _ _ => script_next;
     i2c_smbus_write_byte := fun _ _ => script_next;
     i2c_smbus_read_word_data := fun _ _ => script_next |}.

(** The driver's state with the client [client], the script [b], nothing
    logged yet, and a user address space with one cell, at address [p]. *)
Definition boot (client : option unit) (b : list Z) (p : Z)
  : kstate unit (list Z) :=
  {| ads1115_client := client; bus := b; trace := []; klog := [];
     umem := fun a => if a =? p then Some 0 else None |}.

(** The device node served by the driver over a transport [ops]: [open] gives
    descriptor 3, [ioctl] runs [ads1115_ioctl] with the user pointer [p], and
    reports the cell at [p] as stored when the handler returned 0; the system
    calls of the standard I/O library succeed. *)
Definition ads1115_node {C B : Type} (ops : i2c_ops C B) (p : Z)
  : syscalls (kstate C B) :=
  {| sys_open := fun _ k => (3, k);
     sys_ioctl := fun _ request k =>
       let (r, k') := ads1115_ioctl ops request p k in
       (r, if r =? 0 then umem k' p else None, k');
     sys_close := fun _ k => (0, k);
     sys_stdio := fun _ k => (0, k) |}.

(** A system in which the standard I/O library's system calls end with the
    raw result [raw], and which is [sys] otherwise. *)
Definition with_stdio {K : Type} (raw : Z) (sys : syscalls K) : syscalls K :=
  {| sys_open := sys_open sys;
     sys_ioctl := sys_ioctl sys;
     sys_close := sys_close sys;
     sys_stdio := fun _ k => (raw, k) |}.

(** The demo process at its start on the device node [ads1115_node]: [errno]
    is 0 and nothing has happened yet. *)
Definition start (k : kstate unit (list Z)) : ustate (kstate unit (list Z)) :=
  {| errno := 0; kern := k; out := [] |}.

(** A scripted registration layer: its state is the list of the results its
    next calls return; a call past the end of the script is out of memory
    ([-ENOMEM], -12). The calls that return nothing leave it as it is. *)
Definition script_result (r : list Z) : Z * list Z :=
  match r with
  | [] => (-12, [])
  | x :: r' => (x, r')
  end.

Definition script_dm : devmodel_ops (list Z) :=
  {| register_chrdev := fun _ _ => script_result;
     unregister_chrdev := fun _ _ r => r;
     class_create := fun _ => script_result;
     class_unregister := fun _ r => r;
     class_destroy := fun _ r => r;
     device_create := fun _ _ _ => script_result;
     device_destroy := fun _ _ r => r |}.

(** The module as loaded: no client, the globals zero, nothing registered. *)
Definition loaded (b r : list Z) (p : Z) : mstate unit (list Z) (list Z) :=
  {| drv := boot None b p; major_number := 0; ads1115_class := 0;
     ads1115_device := 0; registry := r; calls := [] |}.

(** ** Proof automation *)

(** The events of a run, once every step's contribution is known, as one
    list after the events that were there before. *)
Ltac collect_events :=
  repeat match goal with
         | H : out _ = _ |- _ => rewrite H; clear H
         end;
  repeat rewrite <- app_assoc; cbn [app]; reflexivity.

(** ** Bit-level facts about [swab16] *)

Lemma to_u16_range x : is_u16 (to_u16 x).
Proof. unfold is_u16, to_u16. apply Z.mod_pos_bound. reflexivity. Qed.

Lemma to_u16_small x : is_u16 x -> to_u16 x = x.
Proof. unfold is_u16, to_u16. intros H. apply Z.mod_small. exact H. Qed.

Lemma to_s16_range x : is_s16 (to_s16 x).
Proof.
  unfold is_s16, to_s16.
  pose proof (Z.mod_pos_bound (x + 2 ^ 15) (2 ^ 16) eq_refl). lia.
Qed.

Lemma to_s16_small x : is_s16 x -> to_s16 x = x.
Proof.
  unfold is_s16, to_s16. intros H.
  rewrite Z.mod_small; lia.
Qed.

Lemma to_u16_testbit x i :
  Z.testbit (to_u16 x) i = (i <? 16) && Z.testbit x i.
Proof. unfold to_u16. apply Z.testbit_mod_pow2. lia. Qed.

Lemma testbit_0x00ff i : 0 <= i -> Z.testbit 0x00ff i = (i <? 8).
Proof.
  intros Hi. change 0x00ff with (Z.ones 8).
  destruct (Z.ltb_spec i 8).
  - apply Z.ones_spec_low. lia.
  - apply Z.ones_spec_high. lia.
Qed.

Lemma testbit_0xff00 i :
  0 <= i -> Z.testbit 0xff00 i = (8 <=? i) && (i <? 16).
Proof.
  intros Hi. change 0xff00 with (Z.shiftl (Z.ones 8) 8).
  rewrite Z.shiftl_spec by exact Hi.
  destruct (Z.leb_spec 8 i); simpl.
  - destruct (Z.ltb_spec i 16).
    + apply Z.ones_spec_low. lia.
    + apply Z.ones_spec_high. lia.
  - apply Z.testbit_neg_r. lia.
Qed.

(** Bit [i] of the swapped word is bit [i + 8] of the low 16 bits of the
    argument for [i < 8], and bit [i - 8] for [8 <= i < 16]. *)
Lemma swab16_testbit x i :
  0 <= i ->
  Z.testbit (swab16 x) i =
    (i <? 16) &&
    (if i <? 8 then Z.testbit x (i + 8) else Z.testbit x (i - 8)).
Proof.
  intros Hi. unfold swab16.
  rewrite to_u16_testbit, Z.lor_spec.
  rewrite Z.shiftl_spec, Z.shiftr_spec by exact Hi.
  destruct (Z.ltb_spec i 16) as [H16|H16]; simpl; [|reflexivity].
  destruct (Z.ltb_spec i 8) as [H8|H8].
  - rewrite (Z.testbit_neg_r _ (i - 8)) by lia. simpl.
    rewrite Z.land_spec, to_u16_testbit, testbit_0xff00 by lia.
    replace (i + 8 <? 16) with true by (symmetry; apply Z.ltb_lt; lia).
    replace (8 <=? i + 8) with true by (symmetry; apply Z.leb_le; lia).
    simpl. apply andb_true_r.
  - rewrite !Z.land_spec, !to_u16_testbit, testbit_0x00ff, testbit_0xff00 by lia.
    replace (i - 8 <? 16) with true by (symmetry; apply Z.ltb_lt; lia).
    replace (i - 8 <? 8) with true by (symmetry; apply Z.ltb_lt; lia).
    replace (i + 8 <? 16) with false by (symmetry; apply Z.ltb_ge; lia).
    simpl. rewrite ?andb_true_r, ?andb_false_r, ?orb_false_r. reflexivity.
Qed.

Lemma swab16_range x : is_u16 (swab16 x).
Proof. unfold swab16. apply to_u16_range. Qed.

Lemma swab16_swab16 x : swab16 (swab16 x) = to_u16 x.
Proof.
  apply Z.bits_inj'. intros i Hi.
  rewrite swab16_testbit, to_u16_testbit by exact Hi.
  destruct (Z.ltb_spec i 16) as [H16|H16]; simpl; [|reflexivity].
  destruct (Z.ltb_spec i 8) as [H8|H8].
  - rewrite swab16_testbit by lia.
    replace (i + 8 <? 16) with true by (symmetry; apply Z.ltb_lt; lia).
    replace (i + 8 <? 8) with false by (symmetry; apply Z.ltb_ge; lia).
    simpl. f_equal. lia.
  - rewrite swab16_testbit by lia.
    replace (i - 8 <? 16) with true by (symmetry; apply Z.ltb_lt; lia).
    replace (i - 8 <? 8) with true by (symmetry; apply Z.ltb_lt; lia).
    simpl. f_equal. lia.
Qed.

(** C5. The byte-order transform is a round trip: the driver encodes (line 68)
    and decodes (line 88) with the same [swab16], and swapping twice gives back
    every 16-bit value. *)
Theorem swab16_round_trip (x : Z) :
  is_u16 x -> swab16 (swab16 x) = x.
Proof.
  intros Hx. rewrite swab16_swab16. apply to_u16_small. exact Hx.
Qed.

Lemma swab16_round_trip_witness :
  is_u16 0x1F40 /\ swab16 0x1F40 = 0x401F /\ swab16 (swab16 0x1F40) = 0x1F40.
Proof.
  assert (H : is_u16 0x1F40) by (unfold is_u16; lia).
  split; [exact H|]. split; [reflexivity|].
  exact (swab16_round_trip 0x1F40 H).
Defined.

(** ** The configuration word *)

Lemma ADS1115_CONFIG_BASE_value : ADS1115_CONFIG_BASE = 0x8383.
Proof. reflexivity. Qed.

(** A three-bit value shifted to the mux offset has no bit outside bits
    12 to 14. *)
Lemma mux_field_testbit m i :
  0 <= m < 8 -> ~ (12 <= i <= 14) ->
  Z.testbit (Z.shiftl m 12) i = false.
Proof.
  intros Hm Hi.
  destruct (Z.lt_ge_cases i 0) as [Hneg|Hpos].
  - apply Z.testbit_neg_r. exact Hneg.
  - rewrite Z.shiftl_spec by exact Hpos.
    destruct (Z.lt_ge_cases i 12) as [Hlow|Hhigh].
    + apply Z.testbit_neg_r. lia.
    + rewrite <- (Z.mod_small m (2 ^ 3)) by lia.
      apply Z.mod_pow2_bits_high. lia.
Qed.

Lemma build_config_mux m :
  0 <= m < 8 ->
  build_config (Z.shiftl m 12) = Z.lor ADS1115_CONFIG_BASE (Z.shiftl m 12).
Proof.
  intros Hm.
  assert (Hc : m = 0 \/ m = 1 \/ m = 2 \/ m = 3 \/
               m = 4 \/ m = 5 \/ m = 6 \/ m = 7) by lia.
  repeat (destruct Hc as [-> | Hc]; [reflexivity|]).
  subst m. reflexivity.
Qed.

Lemma ioctl_mux_channel s :
  0 <= s <= 3 ->
  ioctl_mux (ADS1115_IOCTL_READ_AIN s) = Some (Z.shiftl (4 + s) 12).
Proof.
  intros Hs.
  assert (Hc : s = 0 \/ s = 1 \/ s = 2 \/ s = 3) by lia.
  destruct Hc as [-> | [-> | [-> | ->]]]; reflexivity.
Qed.

(** C2. For every channel selector [s] in {0,1,2,3} the request's command
    selects the mux configuration [(4+s) << 12], and the configuration word
    built from it is the fixed base word (start-single-conversion bit 0x8000,
    PGA code 1 at bit 9 for +/-4.096 V, single-shot mode bit 0x0100, data-rate
    code 4 at bit 5 for 128 samples per second, comparator bits 0x0003) OR'd
    with that mux field; the mux field of the word is [(4+s) << 12], the rest
    of the word is 0x8383, and every bit outside bits 12 to 14 is the base
    word's bit, whatever [s] is. *)
Theorem build_config_base_or_mux (s : Z) :
  0 <= s <= 3 ->
  let mux := Z.shiftl (4 + s) 12 in
  ioctl_mux (ADS1115_IOCTL_READ_AIN s) = Some mux /\
  build_config mux = Z.lor ADS1115_CONFIG_BASE mux /\
  ADS1115_CONFIG_BASE =
    Z.lor 0x8000
      (Z.lor (Z.shiftl 1 9) (Z.lor 0x0100 (Z.lor (Z.shiftl 4 5) 0x0003))) /\
  Z.land (build_config mux) 0x7000 = mux /\
  Z.land (build_config mux) 0x8FFF = 0x8383 /\
  (forall i, ~ (12 <= i <= 14) ->
     Z.testbit (build_config mux) i = Z.testbit ADS1115_CONFIG_BASE i).
Proof.
  intros Hs mux. subst mux.
  assert (Hm : 0 <= 4 + s < 8) by lia.
  assert (Hc : s = 0 \/ s = 1 \/ s = 2 \/ s = 3) by lia.
  split; [apply ioctl_mux_channel; exact Hs|].
  split; [apply build_config_mux; exact Hm|].
  split; [reflexivity|].
  split; [destruct Hc as [-> | [-> | [-> | ->]]]; reflexivity|].
  split.
  - destruct Hc as [-> | [-> | [-> | ->]]]; reflexivity.
  - intros i Hi.
    rewrite build_config_mux by exact Hm.
    rewrite Z.lor_spec, (mux_field_testbit _ _ Hm Hi).
    apply orb_false_r.
Qed.

Lemma build_config_base_or_mux_witness :
  0 <= 2 <= 3 /\
  ioctl_mux ADS1115_IOCTL_READ_AIN2 = Some ADS1115_MUX_AIN2_GND /\
  build_config ADS1115_MUX_AIN2_GND = 0xE383.
Proof.
  assert (H : 0 <= 2 <= 3) by lia.
  split; [exact H|].
  destruct (build_config_base_or_mux 2 H) as (Hsel & Hcfg & _).
  split; [exact Hsel | exact Hcfg].
Defined.


(** ** The conversion engine and the dispatcher *)

Section DriverFacts.

Context {C B : Type}.
Variable ops : i2c_ops C B.

Lemma i2c_error_heuristic_false data : i2c_error_heuristic data = false.
Proof.
  unfold i2c_error_heuristic, EIO, ETIMEDOUT, ENXIO, EBUSY.
  destruct (Z.ltb_spec data (-1000)) as [Hlt|Hge]; [|reflexivity].
  simpl.
  repeat match goal with
         | |- context [data =? ?k] =>
             replace (data =? k) with false by (symmetry; apply Z.eqb_neq; lia)
         end.
  reflexivity.
Qed.

(** The engine when the config write fails: it stops after that one call. *)
Lemma engine_config_write_fails st client mux r b :
  i2c_smbus_write_word_data ops client ADS1115_REG_POINTER_CONFIG
    (swab16 (build_config mux)) (bus st) = (r, b) ->
  r < 0 ->
  ads1115_read_single_channel ops (Some client) mux st =
  (to_s16 r,
   advance st b
     [WriteWordData ADS1115_REG_POINTER_CONFIG (swab16 (build_config mux))]
     [PrintkInt "Config write error: %d" r]).
Proof.
  intros Hw Hr.
  unfold ads1115_read_single_channel, bind, smbus_write_word_data, bus_call.
  rewrite Hw.
  replace (r <? 0) with true by (symmetry; apply Z.ltb_lt; exact Hr).
  reflexivity.
Qed.

(** The engine when the pointer-select write fails. *)
Lemma engine_pointer_write_fails st client mux r1 b1 r2 b2 :
  i2c_smbus_write_word_data ops client ADS1115_REG_POINTER_CONFIG
    (swab16 (build_config mux)) (bus st) = (r1, b1) ->
  0 <= r1 ->
  i2c_smbus_write_byte ops client ADS1115_REG_POINTER_CONVERSION b1 = (r2, b2) ->
  r2 < 0 ->
  ads1115_read_single_channel ops (Some client) mux st =
  (to_s16 r2,
   advance st b2
     [WriteWordData ADS1115_REG_POINTER_CONFIG (swab16 (build_config mux));
      Msleep 15; WriteByte ADS1115_REG_POINTER_CONVERSION]
     [PrintkInt "Conversion register error: %d" r2]).
Proof.
  intros Hw Hr1 Hp Hr2.
  unfold ads1115_read_single_channel, bind, smbus_write_word_data,
    smbus_write_byte, bus_call, msleep.
  rewrite Hw.
  replace (r1 <? 0) with false by (symmetry; apply Z.ltb_ge; exact Hr1).
  cbn [bus trace klog umem ads1115_client]. rewrite Hp.
  replace (r2 <? 0) with true by (symmetry; apply Z.ltb_lt; exact Hr2).
  unfold log, ret, advance. cbn [bus trace klog umem ads1115_client].
  rewrite <- !app_assoc. reflexivity.
Qed.

(** The engine when both writes succeed: all four steps run, and the result
    depends on the sign of the word read once it is stored in the [s16]
    [raw_val]. *)
Lemma engine_reads st client mux r1 b1 r2 b2 w b3 :
  i2c_smbus_write_word_data ops client ADS1115_REG_POINTER_CONFIG
    (swab16 (build_config mux)) (bus st) = (r1, b1) ->
  0 <= r1 ->
  i2c_smbus_write_byte ops client ADS1115_REG_POINTER_CONVERSION b1 = (r2, b2) ->
  0 <= r2 ->
  i2c_smbus_read_word_data ops client ADS1115_REG_POINTER_CONVERSION b2 = (w, b3) ->
  ads1115_read_single_channel ops (Some client) mux st =
  if to_s16 w <? 0 then
    (to_s16 w,
     advance st b3 (acquisition_steps mux)
       [PrintkInt "Read error: %d" (to_s16 w)])
  else
    (to_s16 (swab16 (to_s16 w)), advance st b3 (acquisition_steps mux) []).
Proof.
  intros Hw Hr1 Hp Hr2 Hrd.
  unfold ads1115_read_single_channel, bind, smbus_write_word_data,
    smbus_write_byte, smbus_read_word_data, bus_call, msleep.
  rewrite Hw.
  replace (r1 <? 0) with false by (symmetry; apply Z.ltb_ge; exact Hr1).
  cbn [bus trace klog umem ads1115_client]. rewrite Hp.
  replace (r2 <? 0) with false by (symmetry; apply Z.ltb_ge; exact Hr2).
  cbn [bus trace klog umem ads1115_client]. rewrite Hrd.
  unfold log, ret, advance, acquisition_steps.
  destruct (to_s16 w <? 0);
    cbn [bus trace klog umem ads1115_client];
    rewrite <- ?app_assoc, ?app_nil_r; reflexivity.
Qed.

(** The engine only moves the bus, the trace and the log. *)
Lemma engine_frame client mux st :
  let st' := snd (ads1115_read_single_channel ops client mux st) in
  ads1115_client st' = ads1115_client st /\ umem st' = umem st.
Proof.
  unfold ads1115_read_single_channel, bind, smbus_write_word_data,
    smbus_write_byte, smbus_read_word_data, bus_call, msleep, log, ret.
  destruct client as [c|]; [|split; reflexivity].
  destruct (i2c_smbus_write_word_data ops c _ _ (bus st)) as [r1 b1].
  destruct (r1 <? 0); [split; reflexivity|].
  cbn [bus trace klog umem ads1115_client].
  destruct (i2c_smbus_write_byte ops c _ b1) as [r2 b2].
  destruct (r2 <? 0); [split; reflexivity|].
  cbn [bus trace klog umem ads1115_client].
  destruct (i2c_smbus_read_word_data ops c _ b2) as [w b3].
  destruct (to_s16 w <? 0); split; reflexivity.
Qed.

(** What the engine returns is an [s16]. *)
Lemma engine_result_s16 client mux st :
  is_s16 (fst (ads1115_read_single_channel ops client mux st)).
Proof.
  unfold ads1115_read_single_channel, bind, smbus_write_word_data,
    smbus_write_byte, smbus_read_word_data, bus_call, msleep, log, ret.
  destruct client as [c|]; [|apply to_s16_range].
  destruct (i2c_smbus_write_word_data ops c _ _ (bus st)) as [r1 b1].
  destruct (r1 <? 0); [apply to_s16_range|].
  cbn [bus trace klog umem ads1115_client].
  destruct (i2c_smbus_write_byte ops c _ b1) as [r2 b2].
  destruct (r2 <? 0); [apply to_s16_range|].
  cbn [bus trace klog umem ads1115_client].
  destruct (i2c_smbus_read_word_data ops c _ b2) as [w b3].
  destruct (to_s16 w <? 0); apply to_s16_range.
Qed.

(** The dispatcher with a client attached and a read command: whatever the
    engine returned goes to the user as the sample. *)
Lemma ioctl_read_command st cmd arg c mux data st1 :
  ads1115_client st = Some c ->
  ioctl_mux cmd = Some mux ->
  ads1115_read_single_channel ops (Some c) mux st = (data, st1) ->
  ads1115_ioctl ops cmd arg st =
  match umem st1 arg with
  | Some _ =>
      (0, {| ads1115_client := ads1115_client st1; bus := bus st1;
             trace := trace st1; klog := klog st1;
             umem := fun a => if a =? arg then Some data else umem st1 a |})
  | None =>
      (- EFAULT,
       {| ads1115_client := ads1115_client st1; bus := bus st1;
          trace := trace st1;
          klog := klog st1 ++ [Printk "ads1115_driver: Copy to user error"];
          umem := umem st1 |})
  end.
Proof.
  intros Hc Hm He.
  unfold ads1115_ioctl, bind, get_client. rewrite Hc, Hm, He.
  rewrite i2c_error_heuristic_false.
  unfold copy_to_user. destruct (umem st1 arg); reflexivity.
Qed.

End DriverFacts.

Section DriverClaims.

Context {C B : Type}.
Variable ops : i2c_ops C B.

(** C7. A request issued while no transport is attached (the stored client
    reference is null) fails with [-ENODEV] before any bus activity: whatever
    the command and the user pointer, no event is added to the trace and the
    bus and the user address space are left as they were. *)
Theorem ioctl_not_ready (st : kstate C B) (cmd arg : Z) :
  ads1115_client st = None ->
  let (r, st') := ads1115_ioctl ops cmd arg st in
  r = - ENODEV /\ trace st' = trace st /\ bus st' = bus st /\
  umem st' = umem st.
Proof.
  intros Hc. unfold ads1115_ioctl, bind, get_client. rewrite Hc.
  cbn. repeat split.
Qed.

(** C6, as the code has it. A request whose command is none of the four read
    commands performs no bus operation: the engine is not invoked, so the
    trace, the bus and the user address space are left as they were. It fails
    with [-EINVAL] when a transport is attached; when none is attached the
    client test, which comes first, makes it fail with [-ENODEV]. *)
Theorem ioctl_invalid_command (st : kstate C B) (cmd arg : Z) :
  cmd <> ADS1115_IOCTL_READ_AIN0 ->
  cmd <> ADS1115_IOCTL_READ_AIN1 ->
  cmd <> ADS1115_IOCTL_READ_AIN2 ->
  cmd <> ADS1115_IOCTL_READ_AIN3 ->
  let (r, st') := ads1115_ioctl ops cmd arg st in
  r = match ads1115_client st with
      | Some _ => - EINVAL
      | None => - ENODEV
      end /\
  trace st' = trace st /\ bus st' = bus st /\ umem st' = umem st.
Proof.
  intros H0 H1 H2 H3.
  assert (Hm : ioctl_mux cmd = None).
  { unfold ioctl_mux.
    apply Z.eqb_neq in H0, H1, H2, H3. rewrite H0, H1, H2, H3. reflexivity. }
  unfold ads1115_ioctl, bind, get_client. rewrite Hm.
  destruct (ads1115_client st); cbn; repeat split.
Qed.

(** C10. The dispatcher's error check, [data < -1000] and [data] one of
    [-EIO], [-ETIMEDOUT], [-ENXIO], [-EBUSY], holds of no value, since each of
    the four is greater than -1000. So with a client attached and a read
    command, whatever the engine returned, a sample or a bus error code, is
    copied to the user pointer and the handler returns 0; it returns
    [-EFAULT] when the pointer faults. *)
Theorem ioctl_error_check_is_dead
    (st st1 : kstate C B) (c : C) (cmd arg mux data : Z) :
  ads1115_client st = Some c ->
  ioctl_mux cmd = Some mux ->
  ads1115_read_single_channel ops (Some c) mux st = (data, st1) ->
  (forall d, i2c_error_heuristic d = false) /\
  (-1000 < - EIO /\ -1000 < - ETIMEDOUT /\ -1000 < - ENXIO /\ -1000 < - EBUSY) /\
  let (r, st') := ads1115_ioctl ops cmd arg st in
  match umem st1 arg with
  | Some _ => r = 0 /\ umem st' arg = Some data
  | None => r = - EFAULT /\ umem st' = umem st1
  end /\
  trace st' = trace st1 /\ bus st' = bus st1.
Proof.
  intros Hc Hm He.
  split; [exact i2c_error_heuristic_false|].
  split; [unfold EIO, ETIMEDOUT, ENXIO, EBUSY; lia|].
  rewrite (ioctl_read_command ops st cmd arg c mux data st1 Hc Hm He).
  destruct (umem st1 arg); cbn.
  - rewrite Z.eqb_refl. repeat split.
  - repeat split.
Qed.

(** The steps of an acquisition. An acquisition in which no bus operation
    fails runs exactly these steps, in this order and with nothing in between: the config word
    [ADS1115_CONFIG_BASE | mux_config] is written, byte-swapped, to the config
    register; the driver sleeps the fixed 15 ms; the pointer is set to the
    conversion register by a bare byte write; one word is read from the
    conversion register. When the engine does not take the word for an error
    the result is that word, byte-swapped, and nothing is logged. *)
Theorem acquisition_sequence
    (st : kstate C B) (c : C) (mux r1 r2 w : Z) (b1 b2 b3 : B) :
  i2c_smbus_write_word_data ops c ADS1115_REG_POINTER_CONFIG
    (swab16 (build_config mux)) (bus st) = (r1, b1) ->
  0 <= r1 ->
  i2c_smbus_write_byte ops c ADS1115_REG_POINTER_CONVERSION b1 = (r2, b2) ->
  0 <= r2 ->
  i2c_smbus_read_word_data ops c ADS1115_REG_POINTER_CONVERSION b2 = (w, b3) ->
  let (sample, st') := ads1115_read_single_channel ops (Some c) mux st in
  trace st' =
    trace st ++
    [WriteWordData 0x01 (swab16 (to_u16 (Z.lor ADS1115_CONFIG_BASE mux)));
     Msleep 15;
     WriteByte 0x00;
     ReadWordData 0x00] /\
  bus st' = b3 /\
  (0 <= to_s16 w ->
   sample = to_s16 (swab16 (to_s16 w)) /\ klog st' = klog st).
Proof.
  intros Hw Hr1 Hp Hr2 Hrd.
  rewrite (engine_reads ops st c mux r1 b1 r2 b2 w b3 Hw Hr1 Hp Hr2 Hrd).
  destruct (Z.ltb_spec (to_s16 w) 0) as [Hneg|Hpos]; cbn.
  - repeat split; lia.
  - rewrite app_nil_r. repeat split.
Qed.

(** C3. If every bus operation succeeds and the conversion register yields the
    word 0xFFFF, the request for channel [s] returns 0 and the user receives
    the sample -1, which is the decoded value of 0xFFFF; and no negative
    sample satisfies the dispatcher's error check. *)
Theorem ioctl_sample_minus_one
    (st : kstate C B) (c : C) (s arg r1 r2 old : Z) (b1 b2 b3 : B) :
  0 <= s <= 3 ->
  ads1115_client st = Some c ->
  umem st arg = Some old ->
  i2c_smbus_write_word_data ops c ADS1115_REG_POINTER_CONFIG
    (swab16 (build_config (Z.shiftl (4 + s) 12))) (bus st) = (r1, b1) ->
  0 <= r1 ->
  i2c_smbus_write_byte ops c ADS1115_REG_POINTER_CONVERSION b1 = (r2, b2) ->
  0 <= r2 ->
  i2c_smbus_read_word_data ops c ADS1115_REG_POINTER_CONVERSION b2
    = (0xFFFF, b3) ->
  let (r, st') := ads1115_ioctl ops (ADS1115_IOCTL_READ_AIN s) arg st in
  r = 0 /\ umem st' arg = Some (-1) /\
  to_s16 (swab16 0xFFFF) = -1 /\
  (forall data, is_s16 data -> data < 0 -> i2c_error_heuristic data = false).
Proof.
  intros Hs Hc Hu Hw Hr1 Hp Hr2 Hrd.
  pose proof (engine_reads ops st c _ r1 b1 r2 b2 _ b3 Hw Hr1 Hp Hr2 Hrd) as He.
  change (to_s16 65535 <? 0) with true in He. cbv iota in He.
  rewrite (ioctl_read_command ops st _ arg c _ _ _ Hc (ioctl_mux_channel s Hs) He).
  cbn [advance umem]. rewrite Hu. cbn.
  rewrite Z.eqb_refl.
  split; [reflexivity|]. split; [reflexivity|]. split; [reflexivity|].
  intros data _ _. apply i2c_error_heuristic_false.
Qed.

End DriverClaims.

(** ** Concrete runs *)

Lemma ioctl_not_ready_witness :
  let (r, st') :=
    ads1115_ioctl script_ops ADS1115_IOCTL_READ_AIN0 100
      (boot None [0; 0; 0x401F] 100) in
  r = - ENODEV /\ trace st' = [] /\ bus st' = [0; 0; 0x401F] /\
  umem st' = umem (boot None [0; 0; 0x401F] 100).
Proof.
  exact (ioctl_not_ready script_ops (boot None [0; 0; 0x401F] 100)
           ADS1115_IOCTL_READ_AIN0 100 eq_refl).
Defined.

(** C6 as stated fails when no transport is attached: the request with
    selector 4, whose command is none of the four read commands, then fails
    with [-ENODEV], not with [-EINVAL], because the dispatcher tests the
    client before it looks at the command. *)
Lemma ioctl_invalid_command_without_client :
  ioctl_mux (ADS1115_IOCTL_READ_AIN 4) = None /\
  fst (ads1115_ioctl script_ops (ADS1115_IOCTL_READ_AIN 4) 100
         (boot None [] 100)) = - ENODEV /\
  fst (ads1115_ioctl script_ops (ADS1115_IOCTL_READ_AIN 4) 100
         (boot None [] 100)) <> - EINVAL.
Proof.
  split; [reflexivity|]. split; [reflexivity|].
  cbn. unfold ENODEV, EINVAL. discriminate.
Qed.

Lemma ioctl_invalid_command_witness :
  let (r, st') :=
    ads1115_ioctl script_ops (ADS1115_IOCTL_READ_AIN 4) 100
      (boot (Some tt) [0; 0; 0x401F] 100) in
  r = - EINVAL /\ trace st' = [] /\ bus st' = [0; 0; 0x401F] /\
  umem st' = umem (boot (Some tt) [0; 0; 0x401F] 100).
Proof.
  apply (ioctl_invalid_command script_ops (boot (Some tt) [0; 0; 0x401F] 100)
           (ADS1115_IOCTL_READ_AIN 4) 100);
    vm_compute; discriminate.
Defined.

Lemma ioctl_error_check_is_dead_witness :
  i2c_error_heuristic (- EIO) = false /\
  let (r, st') :=
    ads1115_ioctl script_ops ADS1115_IOCTL_READ_AIN1 100
      (boot (Some tt) [0; - ETIMEDOUT] 100) in
  r = 0 /\ umem st' 100 = Some (- ETIMEDOUT).
Proof.
  destruct (ioctl_error_check_is_dead script_ops
              (boot (Some tt) [0; - ETIMEDOUT] 100) _ tt
              ADS1115_IOCTL_READ_AIN1 100 _ _ eq_refl eq_refl eq_refl)
    as (Hdead & _ & Hrun).
  split; [apply Hdead|].
  destruct (ads1115_ioctl script_ops ADS1115_IOCTL_READ_AIN1 100
              (boot (Some tt) [0; - ETIMEDOUT] 100)) as [r st'].
  destruct Hrun as (Hres & _). exact Hres.
Defined.

Lemma acquisition_sequence_witness :
  let (sample, st') :=
    ads1115_read_single_channel script_ops (Some tt) ADS1115_MUX_AIN0_GND
      (boot (Some tt) [0; 0; 0x401F] 100) in
  trace st' =
    [WriteWordData 0x01 0x83C3; Msleep 15; WriteByte 0x00; ReadWordData 0x00] /\
  bus st' = [] /\ sample = 8000 /\ klog st' = [].
Proof.
  pose proof (acquisition_sequence script_ops
                (boot (Some tt) [0; 0; 0x401F] 100)
                tt ADS1115_MUX_AIN0_GND 0 0 0x401F [0; 0x401F] [0x401F] []
                eq_refl (Z.le_refl 0) eq_refl (Z.le_refl 0) eq_refl) as H.
  destruct (ads1115_read_single_channel script_ops (Some tt)
              ADS1115_MUX_AIN0_GND (boot (Some tt) [0; 0; 0x401F] 100))
    as [sample st'].
  destruct H as (Ht & Hb & Hs).
  split; [exact Ht|]. split; [exact Hb|].
  apply Hs. vm_compute. discriminate.
Defined.

Lemma ioctl_sample_minus_one_witness :
  let (r, st') :=
    ads1115_ioctl script_ops ADS1115_IOCTL_READ_AIN3 100
      (boot (Some tt) [0; 0; 0xFFFF] 100) in
  r = 0 /\ umem st' 100 = Some (-1).
Proof.
  assert (Hs : 0 <= 3 <= 3) by lia.
  pose proof (ioctl_sample_minus_one script_ops
                (boot (Some tt) [0; 0; 0xFFFF] 100) tt 3 100 0 0 0
                [0; 0xFFFF] [0xFFFF] [] Hs eq_refl eq_refl eq_refl
                (Z.le_refl 0) eq_refl (Z.le_refl 0) eq_refl) as H.
  change (ADS1115_IOCTL_READ_AIN 3) with ADS1115_IOCTL_READ_AIN3 in H.
  destruct (ads1115_ioctl script_ops ADS1115_IOCTL_READ_AIN3 100
              (boot (Some tt) [0; 0; 0xFFFF] 100)) as [r st'].
  destruct H as (Hr & Hu & _). split; assumption.
Defined.

(** The engine stops at a failed config write, and the dispatcher hands the
    status to the user as if it were a sample. *)
Lemma ioctl_config_write_fails {C B : Type} (ops : i2c_ops C B)
    (st : kstate C B) (c : C) (cmd arg mux E old : Z) (b : B) :
  ads1115_client st = Some c ->
  ioctl_mux cmd = Some mux ->
  umem st arg = Some old ->
  i2c_smbus_write_word_data ops c ADS1115_REG_POINTER_CONFIG
    (swab16 (build_config mux)) (bus st) = (E, b) ->
  - MAX_ERRNO <= E < 0 ->
  let (r, st') := ads1115_ioctl ops cmd arg st in
  r = 0 /\ umem st' arg = Some E /\
  trace st' =
    trace st ++
    [WriteWordData ADS1115_REG_POINTER_CONFIG (swab16 (build_config mux))].
Proof.
  intros Hc Hm Hu Hw HE.
  pose proof (engine_config_write_fails ops st c mux E b Hw (proj2 HE)) as He.
  rewrite (ioctl_read_command ops st cmd arg c mux _ _ Hc Hm He).
  cbn [advance umem]. rewrite Hu. cbn. rewrite Z.eqb_refl.
  rewrite to_s16_small by (unfold is_s16, MAX_ERRNO in *; lia).
  repeat split.
Qed.

(** C1 at a failing input: the config write of a request for channel 0 fails
    with [-EIO]. The engine stops after that one call, as the claim says, but
    the handler returns 0 and stores -5 as the sample instead of returning
    [-EIO]. *)
Lemma config_write_error_returned_as_sample :
  let st := boot (Some tt) [- EIO] 100 in
  fst (ads1115_read_single_channel script_ops (Some tt) ADS1115_MUX_AIN0_GND st)
    = - EIO /\
  let (r, st') := ads1115_ioctl script_ops ADS1115_IOCTL_READ_AIN0 100 st in
  trace st' = [WriteWordData 0x01 0x83C3] /\
  klog st' = [PrintkInt "Config write error: %d" (- EIO)] /\
  r = 0 /\ r <> - EIO /\ umem st' 100 = Some (- EIO).
Proof.
  cbv zeta. split; [reflexivity|].
  vm_compute. repeat split. discriminate.
Qed.

(** A word read with bit 15 set is returned as it is, not byte-swapped. *)
Lemma engine_reads_high_bit {C B : Type} (ops : i2c_ops C B)
    (st : kstate C B) (c : C) (mux r1 r2 w : Z) (b1 b2 b3 : B) :
  i2c_smbus_write_word_data ops c ADS1115_REG_POINTER_CONFIG
    (swab16 (build_config mux)) (bus st) = (r1, b1) ->
  0 <= r1 ->
  i2c_smbus_write_byte ops c ADS1115_REG_POINTER_CONVERSION b1 = (r2, b2) ->
  0 <= r2 ->
  i2c_smbus_read_word_data ops c ADS1115_REG_POINTER_CONVERSION b2 = (w, b3) ->
  0x8000 <= w <= 0xFFFF ->
  fst (ads1115_read_single_channel ops (Some c) mux st) = w - 65536.
Proof.
  intros Hw Hr1 Hp Hr2 Hrd Hhigh.
  rewrite (engine_reads ops st c mux r1 b1 r2 b2 w b3 Hw Hr1 Hp Hr2 Hrd).
  assert (Hs : to_s16 w = w - 65536).
  { unfold to_s16.
    replace (w + 2 ^ 15) with ((w - 32768) + 1 * 2 ^ 16) by lia.
    rewrite Z.mod_add by lia. rewrite Z.mod_small; lia. }
  rewrite Hs.
  replace (w - 65536 <? 0) with true by (symmetry; apply Z.ltb_lt; lia).
  reflexivity.
Qed.

(** C4 at a failing input: every bus operation succeeds and the word read is
    0x8000 (the device's sample 0x0080, low byte last on the wire). Its
    byte-swapped value is 128, but the engine takes the word for an error,
    logs it, and returns -32768. *)
Lemma word_with_high_bit_is_not_decoded :
  let st := boot (Some tt) [0; 0; 0x8000] 100 in
  let (sample, st') :=
    ads1115_read_single_channel script_ops (Some tt) ADS1115_MUX_AIN0_GND st in
  to_s16 (swab16 0x8000) = 128 /\
  sample = -32768 /\ sample <> to_s16 (swab16 0x8000) /\
  trace st' =
    [WriteWordData 0x01 0x83C3; Msleep 15; WriteByte 0x00; ReadWordData 0x00] /\
  klog st' = [PrintkInt "Read error: %d" (-32768)].
Proof.
  vm_compute. repeat split; discriminate.
Qed.

(** C8 at a failing input: a request for channel 2 on a bus where every
    operation succeeds and the word read is 0x80FF (the device's sample
    0xFF80, -128). The four steps run in order and the handler returns 0, so
    the acquisition succeeds for the caller; but the word is not decoded: the
    engine takes it for an error, logs it, and the user receives -32513, the
    word as read, where the decoded sample is -128. *)
Lemma acquisition_returns_word_undecoded :
  let st := boot (Some tt) [0; 0; 0x80FF] 100 in
  let (r, st') := ads1115_ioctl script_ops ADS1115_IOCTL_READ_AIN2 100 st in
  r = 0 /\
  trace st' =
    [WriteWordData 0x01 0x83E3; Msleep 15; WriteByte 0x00; ReadWordData 0x00] /\
  to_s16 (swab16 0x80FF) = -128 /\
  umem st' 100 = Some (-32513) /\
  umem st' 100 <> Some (to_s16 (swab16 0x80FF)) /\
  klog st' = [PrintkInt "Read error: %d" (-32513)].
Proof.
  vm_compute. repeat split; discriminate.
Qed.

(** ** The demo *)

(** The handler returns 0 or one of three error numbers, negated. *)
Lemma ads1115_ioctl_result {C B : Type} (ops : i2c_ops C B)
    (cmd arg : Z) (st : kstate C B) :
  let r := fst (ads1115_ioctl ops cmd arg st) in
  r = 0 \/ r = - EFAULT \/ r = - ENODEV \/ r = - EINVAL.
Proof.
  unfold ads1115_ioctl, bind, get_client.
  destruct (ads1115_client st) as [c|]; [|cbn; auto].
  destruct (ioctl_mux cmd) as [mux|]; [|cbn; auto].
  destruct (ads1115_read_single_channel ops (Some c) mux st) as [data st1].
  rewrite i2c_error_heuristic_false. unfold copy_to_user.
  destruct (umem st1 arg); cbn; auto.
Qed.

(** So the device node follows the system call convention. *)
Lemma ads1115_node_convention {C B : Type} (ops : i2c_ops C B) (p : Z)
    (fd request : Z) (k : kstate C B) :
  - MAX_ERRNO <= fst (fst (sys_ioctl (ads1115_node ops p) fd request k)).
Proof.
  cbn [ads1115_node sys_ioctl].
  pose proof (ads1115_ioctl_result ops request p k) as Hr.
  destruct (ads1115_ioctl ops request p k) as [r k'].
  cbn [fst] in *. unfold MAX_ERRNO, EFAULT, ENODEV, EINVAL in *. lia.
Qed.

(** The two constants are what the conversion of the decimal numbers gives:
    4096 / 1000 rounded to a [double], and 32768 exactly. *)
Lemma double_constants :
  double_4_096 = double_div (double_of_int 4096) (double_of_int 1000) /\
  double_32768 = double_of_int 32768.
Proof. split; vm_compute; reflexivity. Qed.

(** The voltage of the sample 8000 is exactly 1 V (2^23 * 2^-23), and that of
    the lowest sample is -8589935 * 2^-21, a little below -4.096 V. *)
Lemma adc_to_vol_examples :
  adc_to_vol 8000 = S754_finite false 8388608 (-23) /\
  adc_to_vol (-32768) = S754_finite true 8589935 (-21) /\
  adc_to_vol 0 = S754_zero false.
Proof. repeat split; vm_compute; reflexivity. Qed.

Section DemoFacts.

Context {K : Type}.
Variable sys : syscalls K.

Lemma syscall_result_error r e :
  - MAX_ERRNO <= r -> fst (syscall_result r e) < 0 ->
  0 < snd (syscall_result r e).
Proof.
  unfold syscall_result. intros Hr.
  destruct (Z.leb_spec (- MAX_ERRNO) r) as [_|Hlow]; [|lia].
  destruct (Z.ltb_spec r 0) as [Hneg|Hpos]; cbn; lia.
Qed.

Lemma syscall_result_keeps_error r e :
  0 < e -> 0 < snd (syscall_result r e).
Proof.
  unfold syscall_result. intros He.
  destruct ((- MAX_ERRNO <=? r) && (r <? 0)) eqn:Hc; cbn; [|exact He].
  apply andb_true_iff in Hc. destruct Hc as [_ Hneg].
  apply Z.ltb_lt in Hneg. lia.
Qed.

(** One [ioctl] of the demo: one event, and a positive [errno] when the call
    returned a negative value, provided the raw result is no less than
    [-MAX_ERRNO]. *)
Lemma ioctl_step fd request data st :
  (forall fd request k, - MAX_ERRNO <= fst (fst (sys_ioctl sys fd request k))) ->
  exists r d st1,
    ioctl sys fd request data st = ((r, d), st1) /\
    out st1 = out st ++ [Ioctl fd request r d] /\
    (r < 0 -> 0 < errno st1).
Proof.
  intros Habi. unfold ioctl.
  specialize (Habi fd request (kern st)).
  destruct (sys_ioctl sys fd request (kern st)) as [[raw stored] k].
  cbn [fst] in Habi.
  pose proof (syscall_result_error raw (errno st) Habi) as Herr.
  destruct (syscall_result raw (errno st)) as [r e].
  eexists _, _, _. split; [reflexivity|]. split; [reflexivity|].
  exact Herr.
Qed.

(** A call into the standard I/O library leaves the events as they are and a
    positive [errno] positive. *)
Lemma stdio_step text (st : ustate K) :
  exists st1,
    stdio sys text st = (tt, st1) /\ out st1 = out st /\
    (0 < errno st -> 0 < errno st1).
Proof.
  unfold stdio.
  destruct (sys_stdio sys text (kern st)) as [raw k].
  pose proof (syscall_result_keeps_error raw (errno st)) as Hkeep.
  destruct (syscall_result raw (errno st)) as [r e].
  eexists. split; [reflexivity|]. split; [reflexivity|]. exact Hkeep.
Qed.

(** The failure path of a channel: the error report, the close, and a status
    that is not zero. *)
Lemma failure_path fd msg st :
  0 < errno st ->
  exists status st',
    ubind (perror sys msg) (fun _ => ubind (close sys fd) (fun _ => get_errno)) st
      = (status, st') /\
    out st' = out st ++ [Perror msg (errno st); Close fd] /\
    errno st <> 0 /\ status <> 0.
Proof.
  intros He. unfold perror, get_errno, emit, ubind.
  cbn [errno kern out].
  match goal with
  | |- context [stdio sys msg ?s] =>
      destruct (stdio_step msg s) as (st1 & Hstdio & Hout1 & Herr1)
  end.
  rewrite Hstdio. cbn [errno out] in Hout1, Herr1.
  specialize (Herr1 He).
  unfold close.
  destruct (sys_close sys fd (kern st1)) as [raw k].
  pose proof (syscall_result_keeps_error raw (errno st1) Herr1) as Hkeep.
  destruct (syscall_result raw (errno st1)) as [r e].
  cbn [snd] in Hkeep.
  eexists _, _. split; [reflexivity|]. cbn [errno kern out].
  rewrite Hout1, <- app_assoc. split; [reflexivity|]. split; lia.
Qed.

Lemma open_step path st :
  exists fd st0,
    open sys path st = (fd, st0) /\ out st0 = out st ++ [Open path fd].
Proof.
  unfold open.
  destruct (sys_open sys path (kern st)) as [raw k].
  destruct (syscall_result raw (errno st)) as [r e].
  eexists _, _. split; reflexivity.
Qed.

Lemma ubind_run {A A' : Type} (m : @U K A) (k : A -> @U K A') st :
  ubind m k st = let (a, st') := m st in k a st'.
Proof. reflexivity. Qed.

Lemma close_step fd st :
  exists r st',
    close sys fd st = (r, st') /\ out st' = out st ++ [Close fd].
Proof.
  unfold close.
  destruct (sys_close sys fd (kern st)) as [raw k].
  destruct (syscall_result raw (errno st)) as [r e].
  eexists _, _. split; reflexivity.
Qed.

Lemma printf_step fmt adc voltage (st : ustate K) :
  exists st1,
    printf sys fmt adc voltage st = (tt, st1) /\
    out st1 = out st ++ [Printf fmt adc voltage].
Proof.
  unfold printf, emit, ubind.
  match goal with
  | |- context [stdio sys fmt ?s] =>
      destruct (stdio_step fmt s) as (st1 & Hstdio & Hout1 & _)
  end.
  rewrite Hstdio. exists st1. split; [reflexivity|exact Hout1].
Qed.

(** The open failure path: the error report and nothing else. *)
Lemma open_failure_path msg st :
  exists status st',
    ubind (perror sys msg) (fun _ => get_errno) st = (status, st') /\
    out st' = out st ++ [Perror msg (errno st)].
Proof.
  unfold perror, get_errno, emit, ubind. cbn [errno kern out].
  match goal with
  | |- context [stdio sys msg ?s] =>
      destruct (stdio_step msg s) as (st1 & Hstdio & Hout1 & _)
  end.
  rewrite Hstdio. eexists _, _. split; [reflexivity|exact Hout1].
Qed.

(** C9. The demo opens the device and then reads the channels AIN0, AIN1,
    AIN2, AIN3 in this order, one [ioctl] each. After each call that did not
    fail it prints the channel's line with the raw sample and the voltage
    [sample * 4.096 / 32768.0]; at the first call that fails it reports the
    error, closes the device and returns a status that is not zero, without
    calling [ioctl] for any remaining channel. The raw result of an [ioctl]
    is assumed to follow the system call convention: 0 or more, or an error
    number negated. [perror], [printf] and [close] may each change [errno].
    When the device cannot be opened the demo only reports that. *)
Theorem demo_reads_channels_in_order (data : Z) (st : ustate K) :
  (forall fd request k, - MAX_ERRNO <= fst (fst (sys_ioctl sys fd request k))) ->
  let (status, st') := main sys data st in
  exists fd evs,
    out st' = out st ++ Open DEVICE_PATH fd :: evs /\
    (0 <= fd -> reads_channels fd [0; 1; 2; 3] evs status) /\
    (fd < 0 -> exists e, evs = [Perror "Failed to open the device" e]).
Proof.
  intros Habi. unfold main.
  rewrite ubind_run.
  destruct (open_step DEVICE_PATH st) as (fd & st0 & Hopen & Hout0).
  rewrite Hopen.
  destruct (Z.ltb_spec fd 0) as [Hfd|Hfd].
  { destruct (open_failure_path "Failed to open the device" st0)
      as (status & st' & Hrun & Hout').
    rewrite Hrun. exists fd. eexists.
    split; [collect_events|]. split; [lia|]. intros _.
    eexists. reflexivity. }
  (* AIN0 *)
  rewrite ubind_run.
  destruct (ioctl_step fd ADS1115_IOCTL_READ_AIN0 data st0 Habi)
    as (r0 & d0 & st1 & Hio0 & Hout1 & Herr0).
  rewrite Hio0.
  destruct (Z.ltb_spec r0 0) as [Hr0|Hr0].
  { destruct (failure_path fd "Failed to read AIN0 data" st1 (Herr0 Hr0))
      as (status & st' & Hrun & Hout' & He & Hs).
    rewrite Hrun. exists fd. eexists.
    split; [collect_events|]. split; [|lia]. intros _.
    apply reads_fail; assumption. }
  rewrite ubind_run.
  destruct (printf_step "AIN0: ADC=%d, Voltage=%.3f V" d0 (adc_to_vol d0) st1)
    as (sp1 & Hpr0 & Houtp1).
  rewrite Hpr0.
  (* AIN1 *)
  rewrite ubind_run.
  destruct (ioctl_step fd ADS1115_IOCTL_READ_AIN1 d0 sp1 Habi)
    as (r1 & d1 & st2 & Hio1 & Hout2 & Herr1).
  rewrite Hio1.
  destruct (Z.ltb_spec r1 0) as [Hr1|Hr1].
  { destruct (failure_path fd "Failed to read AIN1 data" st2 (Herr1 Hr1))
      as (status & st' & Hrun & Hout' & He & Hs).
    rewrite Hrun. exists fd. eexists.
    split; [collect_events|]. split; [|lia]. intros _.
    apply (reads_next fd 0); [assumption|].
    apply (reads_fail fd 1); assumption. }
  rewrite ubind_run.
  destruct (printf_step "AIN1: ADC=%d, Voltage=%.3f V" d1 (adc_to_vol d1) st2)
    as (sp2 & Hpr1 & Houtp2).
  rewrite Hpr1.
  (* AIN2 *)
  rewrite ubind_run.
  destruct (ioctl_step fd ADS1115_IOCTL_READ_AIN2 d1 sp2 Habi)
    as (r2 & d2 & st3 & Hio2 & Hout3 & Herr2).
  rewrite Hio2.
  destruct (Z.ltb_spec r2 0) as [Hr2|Hr2].
  { destruct (failure_path fd "Failed to read AIN2 data" st3 (Herr2 Hr2))
      as (status & st' & Hrun & Hout' & He & Hs).
    rewrite Hrun. exists fd. eexists.
    split; [collect_events|]. split; [|lia]. intros _.
    apply (reads_next fd 0); [assumption|].
    apply (reads_next fd 1); [assumption|].
    apply (reads_fail fd 2); assumption. }
  rewrite ubind_run.
  destruct (printf_step "AIN2: ADC=%d, Voltage=%.3f V" d2 (adc_to_vol d2) st3)
    as (sp3 & Hpr2 & Houtp3).
  rewrite Hpr2.
  (* AIN3 *)
  rewrite ubind_run.
  destruct (ioctl_step fd ADS1115_IOCTL_READ_AIN3 d2 sp3 Habi)
    as (r3 & d3 & st4 & Hio3 & Hout4 & Herr3).
  rewrite Hio3.
  destruct (Z.ltb_spec r3 0) as [Hr3|Hr3].
  { destruct (failure_path fd "Failed to read AIN3 data" st4 (Herr3 Hr3))
      as (status & st' & Hrun & Hout' & He & Hs).
    rewrite Hrun. exists fd. eexists.
    split; [collect_events|]. split; [|lia]. intros _.
    apply (reads_next fd 0); [assumption|].
    apply (reads_next fd 1); [assumption|].
    apply (reads_next fd 2); [assumption|].
    apply (reads_fail fd 3); assumption. }
  rewrite ubind_run.
  destruct (printf_step "AIN3: ADC=%d, Voltage=%.3f V" d3 (adc_to_vol d3) st4)
    as (sp4 & Hpr3 & Houtp4).
  rewrite Hpr3.
  rewrite ubind_run.
  destruct (close_step fd sp4) as (rc & st5 & Hclose & Hout5).
  rewrite Hclose.
  unfold uret. exists fd. eexists.
  split; [collect_events|]. split; [|lia]. intros _.
  apply (reads_next fd 0); [assumption|].
  apply (reads_next fd 1); [assumption|].
  apply (reads_next fd 2); [assumption|].
  apply (reads_next fd 3); [assumption|].
  apply reads_done.
Qed.

End DemoFacts.

(** The demo on the driver with no client attached, in a system where a call
    inside [perror] fails with [EINVAL]: the first [ioctl] fails with [ENODEV],
    the demo reports that, closes the device and returns what [errno] has
    become, 22; no other channel is tried. *)
Lemma demo_reads_channels_in_order_witness :
  (let (status, st') :=
     main (with_stdio (- EINVAL) (ads1115_node script_ops 100)) 0
       (start (boot None [] 100)) in
   exists fd evs,
     out st' = [] ++ Open DEVICE_PATH fd :: evs /\
     (0 <= fd -> reads_channels fd [0; 1; 2; 3] evs status) /\
     (fd < 0 -> exists e, evs = [Perror "Failed to open the device" e])) /\
  fst (main (with_stdio (- EINVAL) (ads1115_node script_ops 100)) 0
         (start (boot None [] 100))) = EINVAL /\
  out (snd (main (with_stdio (- EINVAL) (ads1115_node script_ops 100)) 0
              (start (boot None [] 100)))) =
    [Open DEVICE_PATH 3; Ioctl 3 ADS1115_IOCTL_READ_AIN0 (-1) 0;
     Perror "Failed to read AIN0 data" ENODEV; Close 3].
Proof.
  split.
  - exact (demo_reads_channels_in_order
             (with_stdio (- EINVAL) (ads1115_node script_ops 100)) 0
             (start (boot None [] 100))
             (ads1115_node_convention script_ops 100)).
  - split; reflexivity.
Defined.

(** The demo on the driver with a client attached, over a bus on which the
    first two acquisitions succeed (words 0x401F and 0x0000 on the wire), the
    config write of the third fails with [-EIO] and the pointer write of the
    fourth with [-ETIMEDOUT]: all four channels are read and printed, the
    last two with the error numbers as samples, and the status is 0. *)
Lemma demo_run_over_failing_bus :
  let run :=
    main (ads1115_node script_ops 100) 0
      (start (boot (Some tt)
                [0; 0; 0x401F; 0; 0; 0x0000; - EIO; 0; - ETIMEDOUT] 100)) in
  fst run = 0 /\
  out (snd run) =
    [Open DEVICE_PATH 3;
     Ioctl 3 ADS1115_IOCTL_READ_AIN0 0 8000;
     Printf "AIN0: ADC=%d, Voltage=%.3f V" 8000 (adc_to_vol 8000);
     Ioctl 3 ADS1115_IOCTL_READ_AIN1 0 0;
     Printf "AIN1: ADC=%d, Voltage=%.3f V" 0 (adc_to_vol 0);
     Ioctl 3 ADS1115_IOCTL_READ_AIN2 0 (- EIO);
     Printf "AIN2: ADC=%d, Voltage=%.3f V" (- EIO) (adc_to_vol (- EIO));
     Ioctl 3 ADS1115_IOCTL_READ_AIN3 0 (- ETIMEDOUT);
     Printf "AIN3: ADC=%d, Voltage=%.3f V" (- ETIMEDOUT)
       (adc_to_vol (- ETIMEDOUT));
     Close 3].
Proof.
  cbv zeta. split; vm_compute; reflexivity.
Qed.

(** ** More about the conversion engine *)

Lemma byte_pair_disjoint hi lo :
  0 <= lo < 256 -> Z.land (hi * 2 ^ 8) lo = 0.
Proof.
  intros Hlo. apply Z.bits_inj'. intros i Hi.
  rewrite Z.land_spec, Z.bits_0, <- Z.shiftl_mul_pow2 by lia.
  rewrite Z.shiftl_spec by exact Hi.
  destruct (Z.lt_ge_cases i 8) as [Hlow|Hhigh].
  - rewrite Z.testbit_neg_r by lia. reflexivity.
  - rewrite <- (Z.mod_small lo (2 ^ 8)) by lia.
    rewrite Z.mod_pow2_bits_high by lia. apply andb_false_r.
Qed.

(** [swab16] exchanges the two bytes of a word. *)
Lemma swab16_bytes hi lo :
  0 <= hi < 256 -> 0 <= lo < 256 ->
  swab16 (hi + 256 * lo) = 256 * hi + lo.
Proof.
  intros Hhi Hlo. unfold swab16.
  rewrite (to_u16_small (hi + 256 * lo)) by (unfold is_u16; lia).
  change 0x00ff with (Z.ones 8).
  rewrite Z.land_ones by lia.
  rewrite Z.shiftr_land, Z.shiftr_div_pow2, Z.shiftl_mul_pow2 by lia.
  change (Z.shiftr 0xff00 8) with (Z.ones 8).
  rewrite Z.land_ones by lia.
  replace ((hi + 256 * lo) mod 2 ^ 8) with hi
    by (change (2 ^ 8) with 256; rewrite Z.mul_comm, Z.mod_add by lia;
        symmetry; apply Z.mod_small; lia).
  replace ((hi + 256 * lo) / 2 ^ 8) with lo
    by (change (2 ^ 8) with 256; rewrite Z.mul_comm, Z.div_add by lia;
        rewrite Z.div_small by lia; lia).
  rewrite (Z.mod_small lo) by lia.
  pose proof (Z.add_lor_land (hi * 2 ^ 8) lo) as Hadd.
  rewrite (byte_pair_disjoint hi lo Hlo) in Hadd.
  rewrite to_u16_small; unfold is_u16; lia.
Qed.

Section EngineExtras.

Context {C B : Type}.
Variable ops : i2c_ops C B.

(** X1. When the config write succeeds and the pointer-select write fails with
    error number [E], the engine stops there: it has written the config word,
    slept and tried the pointer write, it does not read, it logs the error and
    returns [E]. *)
Theorem pointer_select_failure_stops
    (st : kstate C B) (c : C) (mux r1 E : Z) (b1 b2 : B) :
  i2c_smbus_write_word_data ops c ADS1115_REG_POINTER_CONFIG
    (swab16 (build_config mux)) (bus st) = (r1, b1) ->
  0 <= r1 ->
  i2c_smbus_write_byte ops c ADS1115_REG_POINTER_CONVERSION b1 = (E, b2) ->
  - MAX_ERRNO <= E < 0 ->
  let (sample, st') := ads1115_read_single_channel ops (Some c) mux st in
  sample = E /\
  trace st' =
    trace st ++
    [WriteWordData 0x01 (swab16 (build_config mux)); Msleep 15; WriteByte 0x00] /\
  bus st' = b2 /\
  klog st' = klog st ++ [PrintkInt "Conversion register error: %d" E].
Proof.
  intros Hw Hr1 Hp HE.
  rewrite (engine_pointer_write_fails ops st c mux r1 b1 E b2 Hw Hr1 Hp (proj2 HE)).
  cbn. rewrite to_s16_small by (unfold is_s16, MAX_ERRNO in *; lia).
  repeat split.
Qed.

(** X2. When both writes succeed and the read fails with error number [E], the
    engine has run all four steps, logs the error and returns [E]. *)
Theorem read_failure_returns_status
    (st : kstate C B) (c : C) (mux r1 r2 E : Z) (b1 b2 b3 : B) :
  i2c_smbus_write_word_data ops c ADS1115_REG_POINTER_CONFIG
    (swab16 (build_config mux)) (bus st) = (r1, b1) ->
  0 <= r1 ->
  i2c_smbus_write_byte ops c ADS1115_REG_POINTER_CONVERSION b1 = (r2, b2) ->
  0 <= r2 ->
  i2c_smbus_read_word_data ops c ADS1115_REG_POINTER_CONVERSION b2 = (E, b3) ->
  - MAX_ERRNO <= E < 0 ->
  let (sample, st') := ads1115_read_single_channel ops (Some c) mux st in
  sample = E /\
  trace st' = trace st ++ acquisition_steps mux /\
  bus st' = b3 /\
  klog st' = klog st ++ [PrintkInt "Read error: %d" E].
Proof.
  intros Hw Hr1 Hp Hr2 Hrd HE.
  rewrite (engine_reads ops st c mux r1 b1 r2 b2 E b3 Hw Hr1 Hp Hr2 Hrd).
  rewrite to_s16_small by (unfold is_s16, MAX_ERRNO in *; lia).
  replace (E <? 0) with true by (symmetry; apply Z.ltb_lt; lia).
  cbn. repeat split.
Qed.

(** X3. Whatever the transport does, one call of the engine performs a start
    of the four-step protocol, in order, and nothing else: it only adds events
    to the trace and at most one line to the log, and it leaves the client
    reference and the user address space alone. Without a client it performs
    no bus operation and returns [-EIO]. *)
Theorem engine_runs_prefix_of_protocol
    (client : option C) (mux : Z) (st : kstate C B) :
  let (sample, st') := ads1115_read_single_channel ops client mux st in
  exists evs lines,
    trace st' = trace st ++ evs /\
    is_prefix evs (acquisition_steps mux) /\
    klog st' = klog st ++ lines /\ (List.length lines <= 1)%nat /\
    ads1115_client st' = ads1115_client st /\ umem st' = umem st /\
    (client = None -> evs = [] /\ sample = - EIO).
Proof.
  unfold ads1115_read_single_channel, bind, smbus_write_word_data,
    smbus_write_byte, smbus_read_word_data, bus_call, msleep, log, ret.
  destruct client as [c|].
  2:{ exists [], [Printk "ads1115_driver: Invalid I2C client"].
      cbn. rewrite app_nil_r. repeat split; auto. }
  destruct (i2c_smbus_write_word_data ops c _ _ (bus st)) as [r1 b1].
  destruct (r1 <? 0).
  { eexists [_], [_]. cbn. repeat split; auto; discriminate. }
  cbn [bus trace klog umem ads1115_client].
  destruct (i2c_smbus_write_byte ops c _ b1) as [r2 b2].
  destruct (r2 <? 0).
  { eexists [_; _; _], [_]. cbn. rewrite <- !app_assoc.
    repeat split; auto; discriminate. }
  cbn [bus trace klog umem ads1115_client].
  destruct (i2c_smbus_read_word_data ops c _ b2) as [w b3].
  destruct (to_s16 w <? 0).
  - eexists [_; _; _; _], [_]. cbn. rewrite <- !app_assoc.
    repeat split; auto; discriminate.
  - eexists [_; _; _; _], []. cbn. rewrite <- !app_assoc, app_nil_r.
    repeat split; auto; discriminate.
Qed.

(** X4. The sample is the device's big-endian word: when the bus operations
    succeed and the word read has first wire byte [hi] in its low half and
    second wire byte [lo] below 0x80 in its high half, the engine returns the
    signed 16-bit value with high byte [hi] and low byte [lo], negative when
    [hi] is 0x80 or more. *)
Theorem sample_is_big_endian_word
    (st : kstate C B) (c : C) (mux r1 r2 hi lo : Z) (b1 b2 b3 : B) :
  i2c_smbus_write_word_data ops c ADS1115_REG_POINTER_CONFIG
    (swab16 (build_config mux)) (bus st) = (r1, b1) ->
  0 <= r1 ->
  i2c_smbus_write_byte ops c ADS1115_REG_POINTER_CONVERSION b1 = (r2, b2) ->
  0 <= r2 ->
  i2c_smbus_read_word_data ops c ADS1115_REG_POINTER_CONVERSION b2
    = (hi + 256 * lo, b3) ->
  0 <= hi < 256 -> 0 <= lo < 128 ->
  fst (ads1115_read_single_channel ops (Some c) mux st) =
  if hi <? 128 then 256 * hi + lo else 256 * hi + lo - 65536.
Proof.
  intros Hw Hr1 Hp Hr2 Hrd Hhi Hlo.
  rewrite (engine_reads ops st c mux r1 b1 r2 b2 _ b3 Hw Hr1 Hp Hr2 Hrd).
  rewrite (to_s16_small (hi + 256 * lo)) by (unfold is_s16; lia).
  replace (hi + 256 * lo <? 0) with false by (symmetry; apply Z.ltb_ge; lia).
  cbn [fst]. rewrite swab16_bytes by lia.
  destruct (Z.ltb_spec hi 128) as [Hpos|Hneg].
  - apply to_s16_small. unfold is_s16. lia.
  - unfold to_s16.
    replace (256 * hi + lo + 2 ^ 15)
      with ((256 * hi + lo - 32768) + 1 * 2 ^ 16) by lia.
    rewrite Z.mod_add by lia. rewrite Z.mod_small; lia.
Qed.

(** X5. The engine keeps nothing between calls: from two states with the same
    bus it returns the same sample, leaves the same bus, and adds the same
    events and log lines, whatever was traced and logged before. *)
Theorem engine_depends_on_bus_only
    (client : option C) (mux : Z) (st1 st2 : kstate C B) :
  bus st1 = bus st2 ->
  let (s1, st1') := ads1115_read_single_channel ops client mux st1 in
  let (s2, st2') := ads1115_read_single_channel ops client mux st2 in
  s1 = s2 /\ bus st1' = bus st2' /\
  exists evs lines,
    trace st1' = trace st1 ++ evs /\ trace st2' = trace st2 ++ evs /\
    klog st1' = klog st1 ++ lines /\ klog st2' = klog st2 ++ lines.
Proof.
  intros Hbus.
  unfold ads1115_read_single_channel, bind, smbus_write_word_data,
    smbus_write_byte, smbus_read_word_data, bus_call, msleep, log, ret.
  destruct client as [c|].
  2:{ cbn. repeat split; [exact Hbus|]. eexists [], [_].
      rewrite !app_nil_r. repeat split. }
  rewrite <- Hbus.
  destruct (i2c_smbus_write_word_data ops c _ _ (bus st1)) as [r1 b1].
  destruct (r1 <? 0).
  { cbn. repeat split. eexists [_], [_]. repeat split. }
  cbn [bus trace klog umem ads1115_client].
  destruct (i2c_smbus_write_byte ops c _ b1) as [r2 b2].
  destruct (r2 <? 0).
  { cbn. repeat split. eexists [_; _; _], [_].
    rewrite <- !app_assoc. repeat split. }
  cbn [bus trace klog umem ads1115_client].
  destruct (i2c_smbus_read_word_data ops c _ b2) as [w b3].
  destruct (to_s16 w <? 0); cbn; repeat split.
  - eexists [_; _; _; _], [_]. rewrite <- !app_assoc. repeat split.
  - eexists [_; _; _; _], []. rewrite <- !app_assoc, !app_nil_r. repeat split.
Qed.

(** X6. What a request does to its caller and to the driver: the handler
    returns 0, [-EFAULT], [-ENODEV] or [-EINVAL] and nothing else, so never a
    bus error number; it never changes the client reference; it changes the
    user address space at most at the pointer it was given, and only when it
    returns 0, in which case the cell holds a signed 16-bit value. *)
Theorem ioctl_results_and_frame (cmd arg : Z) (st : kstate C B) :
  let (r, st') := ads1115_ioctl ops cmd arg st in
  (r = 0 \/ r = - EFAULT \/ r = - ENODEV \/ r = - EINVAL) /\
  ads1115_client st' = ads1115_client st /\
  (forall a, a <> arg -> umem st' a = umem st a) /\
  (r <> 0 -> umem st' = umem st) /\
  (r = 0 -> exists data, umem st' arg = Some data /\ is_s16 data).
Proof.
  unfold ads1115_ioctl, bind, get_client.
  destruct (ads1115_client st) as [c|] eqn:Hc.
  2:{ cbn. unfold ENODEV. repeat split; auto; try lia. }
  destruct (ioctl_mux cmd) as [mux|].
  2:{ cbn. unfold EINVAL. repeat split; auto; try lia. }
  pose proof (engine_frame ops (Some c) mux st) as Hframe.
  pose proof (engine_result_s16 ops (Some c) mux st) as Hs16.
  destruct (ads1115_read_single_channel ops (Some c) mux st) as [data st1].
  cbn [fst snd] in Hframe, Hs16. destruct Hframe as [Hcl Hum].
  rewrite i2c_error_heuristic_false. unfold copy_to_user.
  destruct (umem st1 arg) as [old|] eqn:Hold; cbn.
  - split; [auto|]. split; [congruence|]. split; [|split].
    + intros a Ha. apply Z.eqb_neq in Ha. rewrite Ha, Hum. reflexivity.
    + intros Hr. contradiction Hr. reflexivity.
    + intros _. exists data. rewrite Z.eqb_refl.
      split; [reflexivity|exact Hs16].
  - split; [auto|]. split; [congruence|]. split; [|split].
    + intros a _. rewrite Hum. reflexivity.
    + intros _. exact Hum.
    + unfold EFAULT. intros Hr. discriminate Hr.
Qed.

End EngineExtras.

(** ** Probe and remove *)

Section LifecycleFacts.

Context {C B R : Type}.
Variable dm : devmodel_ops R.

Lemma IS_ERR_negative p : IS_ERR p = true -> p < 0.
Proof.
  unfold IS_ERR. intros H. apply andb_true_iff in H.
  destruct H as [_ H]. apply Z.ltb_lt in H. exact H.
Qed.

(** [remove] does not touch the driver's state. *)
Lemma remove_keeps_drv (client : C) (st : mstate C B R) :
  drv (snd (ads1115_i2c_remove dm client st)) = drv st.
Proof. reflexivity. Qed.

(** [probe] stores the client whatever happens next. *)
Lemma probe_sets_client (client : C) (st : mstate C B R) :
  ads1115_client (drv (snd (ads1115_i2c_probe dm client st))) = Some client.
Proof.
  unfold ads1115_i2c_probe, lbind, set_client, dm_call, set_major_number,
    set_class, set_device, dm_do, lprintk, lret.
  cbn [registry drv calls major_number ads1115_class ads1115_device].
  destruct (register_chrdev dm 0 DEVICE_NAME (registry st)) as [major r1].
  destruct (major <? 0); [reflexivity|].
  cbn [registry drv calls major_number ads1115_class ads1115_device].
  destruct (class_create dm CLASS_NAME r1) as [cls r2].
  destruct (IS_ERR cls); [reflexivity|].
  cbn [registry drv calls major_number ads1115_class ads1115_device].
  destruct (device_create dm cls (MKDEV major 0) DEVICE_NAME r2) as [dev r3].
  destruct (IS_ERR dev); reflexivity.
Qed.

(** For the major numbers the kernel hands out, the device number is the
    major number shifted past the 20 minor bits. *)
Lemma MKDEV_major major :
  0 <= major < 4096 -> MKDEV major 0 = major * 1048576.
Proof.
  intros H. unfold MKDEV.
  rewrite Z.lor_0_r, Z.shiftl_mul_pow2 by lia.
  change (2 ^ 20) with 1048576. apply Z.mod_small. lia.
Qed.

(** X7. [probe] registers all or nothing. It calls [register_chrdev], then
    [class_create], then [device_create] with the class and the device number
    [MKDEV(major, 0)] it has obtained, and stops at the first that fails,
    returning that call's negative error number after undoing what it had
    obtained, last obtained first: [unregister_chrdev] with its major number
    when [class_create] failed; [class_destroy] with its class and then
    [unregister_chrdev] with its major number when [device_create] failed.
    When none fails it returns 0 and undoes nothing. In every case the client
    reference is set to the probed client, and the bus, the trace and the
    user address space are untouched. *)
Theorem probe_registers_all_or_nothing (client : C) (st : mstate C B R) :
  let (r, st') := ads1115_i2c_probe dm client st in
  ads1115_client (drv st') = Some client /\
  bus (drv st') = bus (drv st) /\ trace (drv st') = trace (drv st) /\
  umem (drv st') = umem (drv st) /\
  exists major cls dev,
    (major < 0 /\ r = major /\
     calls st' = calls st ++ [RegisterChrdev 0 "ads1115" major])
    \/
    (0 <= major /\ IS_ERR cls = true /\ r = cls /\ r < 0 /\
     calls st' =
       calls st ++
       [RegisterChrdev 0 "ads1115" major;
        ClassCreate "ads1115" cls;
        UnregisterChrdev major "ads1115"])
    \/
    (0 <= major /\ IS_ERR cls = false /\ IS_ERR dev = true /\
     r = dev /\ r < 0 /\
     calls st' =
       calls st ++
       [RegisterChrdev 0 "ads1115" major;
        ClassCreate "ads1115" cls;
        DeviceCreate cls (MKDEV major 0) "ads1115" dev;
        ClassDestroy cls;
        UnregisterChrdev major "ads1115"])
    \/
    (0 <= major /\ IS_ERR cls = false /\ IS_ERR dev = false /\ r = 0 /\
     calls st' =
       calls st ++
       [RegisterChrdev 0 "ads1115" major;
        ClassCreate "ads1115" cls;
        DeviceCreate cls (MKDEV major 0) "ads1115" dev] /\
     major_number st' = major /\ ads1115_class st' = cls /\
     ads1115_device st' = dev).
Proof.
  unfold ads1115_i2c_probe, lbind, set_client, dm_call, set_major_number,
    set_class, set_device, dm_do, lprintk, lret.
  cbn [registry drv calls major_number ads1115_class ads1115_device].
  destruct (register_chrdev dm 0 DEVICE_NAME (registry st)) as [major r1].
  destruct (Z.ltb_spec major 0) as [Hmajor|Hmajor].
  { cbn. repeat split. exists major, 0, 0. left. repeat split. exact Hmajor. }
  cbn [registry drv calls major_number ads1115_class ads1115_device].
  destruct (class_create dm CLASS_NAME r1) as [cls r2].
  destruct (IS_ERR cls) eqn:Hcls.
  { cbn. repeat split. exists major, cls, 0. right. left.
    rewrite <- !app_assoc.
    split; [exact Hmajor|]. split; [exact Hcls|]. split; [reflexivity|].
    split; [apply IS_ERR_negative; exact Hcls|reflexivity]. }
  cbn [registry drv calls major_number ads1115_class ads1115_device].
  destruct (device_create dm cls (MKDEV major 0) DEVICE_NAME r2) as [dev r3].
  destruct (IS_ERR dev) eqn:Hdev.
  - cbn. repeat split. exists major, cls, dev. right. right. left.
    rewrite <- !app_assoc.
    split; [exact Hmajor|]. split; [exact Hcls|]. split; [exact Hdev|].
    split; [reflexivity|].
    split; [apply IS_ERR_negative; exact Hdev|reflexivity].
  - cbn. repeat split. exists major, cls, dev. right. right. right.
    rewrite <- !app_assoc.
    split; [exact Hmajor|]. split; [exact Hcls|]. split; [exact Hdev|].
    repeat split.
Qed.

(** X8. After a probe in which all three registrations succeed, [remove]
    hands back exactly what the probe obtained: it destroys the device with
    the class and the device number [MKDEV(major, 0)] of the probe, passes
    that class to [class_unregister] and then also to [class_destroy], and
    unregisters the character device under that major number. Both return
    0, and the client reference is still the probed client. *)
Theorem probe_then_remove
    (client client' : C) (st : mstate C B R) (major cls dev : Z) (r1 r2 r3 : R) :
  register_chrdev dm 0 DEVICE_NAME (registry st) = (major, r1) ->
  0 <= major ->
  class_create dm CLASS_NAME r1 = (cls, r2) ->
  IS_ERR cls = false ->
  device_create dm cls (MKDEV major 0) DEVICE_NAME r2 = (dev, r3) ->
  IS_ERR dev = false ->
  let (p, st1) := ads1115_i2c_probe dm client st in
  let (q, st2) := ads1115_i2c_remove dm client' st1 in
  p = 0 /\ q = 0 /\
  calls st2 =
    calls st ++
    [RegisterChrdev 0 "ads1115" major;
     ClassCreate "ads1115" cls;
     DeviceCreate cls (MKDEV major 0) "ads1115" dev;
     DeviceDestroy cls (MKDEV major 0);
     ClassUnregister cls;
     ClassDestroy cls;
     UnregisterChrdev major "ads1115"] /\
  MKDEV major 0 = (major * 2 ^ 20) mod 2 ^ 32 /\
  ads1115_client (drv st2) = Some client.
Proof.
  intros Hreg Hmajor Hcc Hcls Hdc Hdev.
  unfold ads1115_i2c_probe, ads1115_i2c_remove, lbind, set_client, dm_call,
    set_major_number, set_class, set_device, dm_do, lprintk, lret,
    get_class, get_major_number.
  cbn [registry drv calls major_number ads1115_class ads1115_device].
  rewrite Hreg.
  replace (major <? 0) with false by (symmetry; apply Z.ltb_ge; exact Hmajor).
  cbn [registry drv calls major_number ads1115_class ads1115_device].
  rewrite Hcc, Hcls.
  cbn [registry drv calls major_number ads1115_class ads1115_device].
  rewrite Hdc, Hdev.
  cbn [registry drv calls major_number ads1115_class ads1115_device
       ads1115_client].
  rewrite <- !app_assoc.
  split; [reflexivity|]. split; [reflexivity|]. split; [reflexivity|].
  split; [|reflexivity].
  unfold MKDEV. rewrite Z.lor_0_r, Z.shiftl_mul_pow2 by lia. reflexivity.
Qed.

(** X9. Once [probe] has run, the driver never reports that no device is
    attached again: whether the probe succeeded or failed, and also after
    [remove], a request does not return [-ENODEV], because [probe] sets the
    client reference first and neither its failure paths nor [remove] clear
    it. *)
Theorem client_outlives_probe_failure_and_remove
    (ops : i2c_ops C B) (client client' : C) (cmd arg : Z)
    (st : mstate C B R) :
  let st1 := snd (ads1115_i2c_probe dm client st) in
  let st2 := snd (ads1115_i2c_remove dm client' st1) in
  ads1115_client (drv st1) = Some client /\
  ads1115_client (drv st2) = Some client /\
  fst (ads1115_ioctl ops cmd arg (drv st1)) <> - ENODEV /\
  fst (ads1115_ioctl ops cmd arg (drv st2)) <> - ENODEV.
Proof.
  intros st1 st2.
  assert (H1 : ads1115_client (drv st1) = Some client)
    by apply probe_sets_client.
  assert (H2 : ads1115_client (drv st2) = Some client)
    by (unfold st2; rewrite remove_keeps_drv; exact H1).
  assert (Hattached : forall k : kstate C B,
             ads1115_client k = Some client ->
             fst (ads1115_ioctl ops cmd arg k) <> - ENODEV).
  { intros k Hk. unfold ads1115_ioctl, bind, get_client. rewrite Hk.
    destruct (ioctl_mux cmd) as [mux|]; [|cbn; unfold EINVAL, ENODEV; lia].
    destruct (ads1115_read_single_channel ops (Some client) mux k)
      as [data k1].
    rewrite i2c_error_heuristic_false. unfold copy_to_user.
    destruct (umem k1 arg); cbn; unfold EFAULT, ENODEV; lia. }
  split; [exact H1|]. split; [exact H2|].
  split; apply Hattached; assumption.
Qed.

End LifecycleFacts.

(** ** More about the demo *)

Section DemoOnDriver.

Context {C B : Type}.
Variable ops : i2c_ops C B.
Variable p : Z.

(** One [ioctl] of the demo on the driver's node, for a read command, with a
    client attached and the demo's variable mapped: it returns 0. *)
Lemma node_ioctl_attached (fd cmd mux data : Z) (c : C) (old : Z)
    (st : ustate (kstate C B)) :
  ads1115_client (kern st) = Some c ->
  umem (kern st) p = Some old ->
  ioctl_mux cmd = Some mux ->
  exists d st1,
    ioctl (ads1115_node ops p) fd cmd data st = ((0, d), st1) /\
    is_s16 d /\
    ads1115_client (kern st1) = Some c /\
    umem (kern st1) p = Some d /\
    errno st1 = errno st /\
    out st1 = out st ++ [Ioctl fd cmd 0 d].
Proof.
  intros Hc Hu Hm.
  pose proof (engine_frame ops (Some c) mux (kern st)) as Hframe.
  pose proof (engine_result_s16 ops (Some c) mux (kern st)) as Hs16.
  destruct (ads1115_read_single_channel ops (Some c) mux (kern st))
    as [d k1] eqn:He.
  cbn [fst snd] in Hframe, Hs16. destruct Hframe as [Hcl Hum].
  unfold ioctl. cbn [ads1115_node sys_ioctl].
  rewrite (ioctl_read_command ops (kern st) cmd p c mux d k1 Hc Hm He).
  rewrite Hum, Hu. cbn.
  rewrite Z.eqb_refl.
  eexists _, _. split; [reflexivity|]. cbn.
  rewrite Z.eqb_refl.
  split; [exact Hs16|]. split; [congruence|]. repeat split.
Qed.

(** On the driver's node a [printf] prints and changes nothing else. *)
Lemma node_printf_step fmt adc voltage (st : ustate (kstate C B)) :
  printf (ads1115_node ops p) fmt adc voltage st =
  (tt, {| errno := errno st; kern := kern st;
          out := out st ++ [Printf fmt adc voltage] |}).
Proof. reflexivity. Qed.

(** X11. On the driver, with a client attached and the demo's variable
    mapped, the demo never sees a failure, whatever the bus does: every
    [ioctl] returns 0, all four channels are read and printed in order, each
    with a signed 16-bit value, and the exit status is 0. A bus error number
    reaches the user only as a printed sample. *)
Theorem demo_on_driver_always_succeeds
    (c : C) (old data : Z) (st : ustate (kstate C B)) :
  ads1115_client (kern st) = Some c ->
  umem (kern st) p = Some old ->
  let (status, st') := main (ads1115_node ops p) data st in
  status = 0 /\
  exists d0 d1 d2 d3,
    is_s16 d0 /\ is_s16 d1 /\ is_s16 d2 /\ is_s16 d3 /\
    out st' =
      out st ++
      [Open DEVICE_PATH 3;
       Ioctl 3 ADS1115_IOCTL_READ_AIN0 0 d0;
       Printf "AIN0: ADC=%d, Voltage=%.3f V" d0 (adc_to_vol d0);
       Ioctl 3 ADS1115_IOCTL_READ_AIN1 0 d1;
       Printf "AIN1: ADC=%d, Voltage=%.3f V" d1 (adc_to_vol d1);
       Ioctl 3 ADS1115_IOCTL_READ_AIN2 0 d2;
       Printf "AIN2: ADC=%d, Voltage=%.3f V" d2 (adc_to_vol d2);
       Ioctl 3 ADS1115_IOCTL_READ_AIN3 0 d3;
       Printf "AIN3: ADC=%d, Voltage=%.3f V" d3 (adc_to_vol d3);
       Close 3].
Proof.
  intros Hc Hu. unfold main.
  rewrite ubind_run.
  change (open (ads1115_node ops p) DEVICE_PATH st)
    with (3, {| errno := errno st; kern := kern st;
                out := out st ++ [Open DEVICE_PATH 3] |}).
  cbv beta iota. change (3 <? 0) with false. cbv beta iota.
  rewrite ubind_run.
  match goal with
  | |- context [ioctl _ 3 ADS1115_IOCTL_READ_AIN0 data ?s] =>
      destruct (node_ioctl_attached 3 ADS1115_IOCTL_READ_AIN0 _ data c old s
                  Hc Hu eq_refl)
        as (d0 & st1 & Hio0 & Hs0 & Hc1 & Hu1 & _ & Hout1)
  end.
  rewrite Hio0. cbn [out] in Hout1.
  cbv beta iota. change (0 <? 0) with false. cbv beta iota.
  rewrite ubind_run, node_printf_step. cbv beta iota. rewrite ubind_run.
  match goal with
  | |- context [ioctl _ 3 ADS1115_IOCTL_READ_AIN1 d0 ?s] =>
      destruct (node_ioctl_attached 3 ADS1115_IOCTL_READ_AIN1 _ d0 c d0 s
                  Hc1 Hu1 eq_refl)
        as (d1 & st2 & Hio1 & Hs1 & Hc2 & Hu2 & _ & Hout2)
  end.
  rewrite Hio1. cbn [out] in Hout2.
  cbv beta iota. change (0 <? 0) with false. cbv beta iota.
  rewrite ubind_run, node_printf_step. cbv beta iota. rewrite ubind_run.
  match goal with
  | |- context [ioctl _ 3 ADS1115_IOCTL_READ_AIN2 d1 ?s] =>
      destruct (node_ioctl_attached 3 ADS1115_IOCTL_READ_AIN2 _ d1 c d1 s
                  Hc2 Hu2 eq_refl)
        as (d2 & st3 & Hio2 & Hs2 & Hc3 & Hu3 & _ & Hout3)
  end.
  rewrite Hio2. cbn [out] in Hout3.
  cbv beta iota. change (0 <? 0) with false. cbv beta iota.
  rewrite ubind_run, node_printf_step. cbv beta iota. rewrite ubind_run.
  match goal with
  | |- context [ioctl _ 3 ADS1115_IOCTL_READ_AIN3 d2 ?s] =>
      destruct (node_ioctl_attached 3 ADS1115_IOCTL_READ_AIN3 _ d2 c d2 s
                  Hc3 Hu3 eq_refl)
        as (d3 & st4 & Hio3 & Hs3 & _ & _ & _ & Hout4)
  end.
  rewrite Hio3. cbn [out] in Hout4.
  cbv beta iota. change (0 <? 0) with false. cbv beta iota.
  rewrite ubind_run, node_printf_step. cbv beta iota. rewrite ubind_run.
  unfold close, uret. cbn [ads1115_node sys_close kern errno out].
  unfold syscall_result. cbn [andb Z.leb Z.ltb Z.compare MAX_ERRNO Z.opp].
  cbn.
  split; [reflexivity|].
  exists d0, d1, d2, d3.
  repeat (split; [assumption|]).
  rewrite Hout4, Hout3, Hout2, Hout1.
  repeat rewrite <- app_assoc. reflexivity.
Qed.

End DemoOnDriver.

(** ** More concrete runs *)

Lemma pointer_select_failure_stops_witness :
  let (sample, st') :=
    ads1115_read_single_channel script_ops (Some tt) ADS1115_MUX_AIN1_GND
      (boot (Some tt) [0; - ENXIO; 0x401F] 100) in
  sample = - ENXIO /\
  trace st' = [WriteWordData 0x01 0x83D3; Msleep 15; WriteByte 0x00] /\
  bus st' = [0x401F] /\
  klog st' = [PrintkInt "Conversion register error: %d" (- ENXIO)].
Proof.
  apply (pointer_select_failure_stops script_ops
           (boot (Some tt) [0; - ENXIO; 0x401F] 100) tt ADS1115_MUX_AIN1_GND
           0 (- ENXIO) [- ENXIO; 0x401F] [0x401F]
           eq_refl (Z.le_refl 0) eq_refl).
  unfold MAX_ERRNO, ENXIO. lia.
Defined.

Lemma read_failure_returns_status_witness :
  let (sample, st') :=
    ads1115_read_single_channel script_ops (Some tt) ADS1115_MUX_AIN0_GND
      (boot (Some tt) [0; 0; - ETIMEDOUT] 100) in
  sample = - ETIMEDOUT /\
  trace st' =
    [WriteWordData 0x01 0x83C3; Msleep 15; WriteByte 0x00; ReadWordData 0x00] /\
  bus st' = [] /\
  klog st' = [PrintkInt "Read error: %d" (- ETIMEDOUT)].
Proof.
  apply (read_failure_returns_status script_ops
           (boot (Some tt) [0; 0; - ETIMEDOUT] 100) tt ADS1115_MUX_AIN0_GND
           0 0 (- ETIMEDOUT) [0; - ETIMEDOUT] [- ETIMEDOUT] []
           eq_refl (Z.le_refl 0) eq_refl (Z.le_refl 0) eq_refl).
  unfold MAX_ERRNO, ETIMEDOUT. lia.
Defined.

Lemma sample_is_big_endian_word_witness :
  fst (ads1115_read_single_channel script_ops (Some tt) ADS1115_MUX_AIN0_GND
         (boot (Some tt) [0; 0; 0x38FF] 100)) = -200.
Proof.
  apply (sample_is_big_endian_word script_ops
           (boot (Some tt) [0; 0; 0x38FF] 100) tt ADS1115_MUX_AIN0_GND
           0 0 0xFF 0x38 [0; 0x38FF] [0x38FF] []
           eq_refl (Z.le_refl 0) eq_refl (Z.le_refl 0) eq_refl); lia.
Defined.

Lemma engine_depends_on_bus_only_witness :
  let (s1, st1') :=
    ads1115_read_single_channel script_ops (Some tt) ADS1115_MUX_AIN2_GND
      (boot (Some tt) [0; 0; 0x401F] 100) in
  let (s2, st2') :=
    ads1115_read_single_channel script_ops (Some tt) ADS1115_MUX_AIN2_GND
      {| ads1115_client := None; bus := [0; 0; 0x401F];
         trace := [Msleep 15]; klog := [Printk "earlier"];
         umem := fun _ => None |} in
  s1 = s2 /\ bus st1' = bus st2' /\
  exists evs lines,
    trace st1' = [] ++ evs /\ trace st2' = [Msleep 15] ++ evs /\
    klog st1' = [] ++ lines /\ klog st2' = [Printk "earlier"] ++ lines.
Proof.
  exact (engine_depends_on_bus_only script_ops (Some tt) ADS1115_MUX_AIN2_GND
           (boot (Some tt) [0; 0; 0x401F] 100)
           {| ads1115_client := None; bus := [0; 0; 0x401F];
              trace := [Msleep 15]; klog := [Printk "earlier"];
              umem := fun _ => None |}
           eq_refl).
Defined.

Lemma probe_then_remove_witness :
  let (p, st1) := ads1115_i2c_probe script_dm tt (loaded [] [240; 1000; 2000] 100) in
  let (q, st2) := ads1115_i2c_remove script_dm tt st1 in
  p = 0 /\ q = 0 /\
  calls st2 =
    [RegisterChrdev 0 "ads1115" 240;
     ClassCreate "ads1115" 1000;
     DeviceCreate 1000 251658240 "ads1115" 2000;
     DeviceDestroy 1000 251658240;
     ClassUnregister 1000;
     ClassDestroy 1000;
     UnregisterChrdev 240 "ads1115"] /\
  ads1115_client (drv st2) = Some tt.
Proof.
  pose proof (probe_then_remove script_dm tt tt
                (loaded [] [240; 1000; 2000] 100) 240 1000 2000
                [1000; 2000] [2000] []
                eq_refl ltac:(lia) eq_refl eq_refl eq_refl eq_refl) as H.
  destruct (ads1115_i2c_probe script_dm tt (loaded [] [240; 1000; 2000] 100))
    as [p st1].
  destruct (ads1115_i2c_remove script_dm tt st1) as [q st2].
  destruct H as (Hp & Hq & Hcalls & _ & Hclient).
  repeat split; assumption.
Defined.

Lemma demo_on_driver_always_succeeds_witness :
  let (status, st') :=
    main (ads1115_node script_ops 100) 0 (start (boot (Some tt) [- EIO] 100)) in
  status = 0 /\
  exists d0 d1 d2 d3,
    is_s16 d0 /\ is_s16 d1 /\ is_s16 d2 /\ is_s16 d3 /\
    out st' =
      [] ++
      [Open DEVICE_PATH 3;
       Ioctl 3 ADS1115_IOCTL_READ_AIN0 0 d0;
       Printf "AIN0: ADC=%d, Voltage=%.3f V" d0 (adc_to_vol d0);
       Ioctl 3 ADS1115_IOCTL_READ_AIN1 0 d1;
       Printf "AIN1: ADC=%d, Voltage=%.3f V" d1 (adc_to_vol d1);
       Ioctl 3 ADS1115_IOCTL_READ_AIN2 0 d2;
       Printf "AIN2: ADC=%d, Voltage=%.3f V" d2 (adc_to_vol d2);
       Ioctl 3 ADS1115_IOCTL_READ_AIN3 0 d3;
       Printf "AIN3: ADC=%d, Voltage=%.3f V" d3 (adc_to_vol d3);
       Close 3].
Proof.
  exact (demo_on_driver_always_succeeds script_ops 100 tt 0 0
           (start (boot (Some tt) [- EIO] 100)) eq_refl eq_refl).
Defined.
